(** * Github-to-Pdf: the request pipeline of [server.js]

    A shallow embedding of [server.js]: the upstream fetcher, the README
    fetcher, the view-model builder and the two request handlers
    ([/preview] and [/pdf]), followed by the properties the design document
    states about them.

    Conventions.
    - JavaScript values that the code tests for truthiness ([x || d],
      [!x]) are values of [jsval]; fields the code only passes through are
      given the type the upstream schema gives them.
    - Everything outside the file (node-fetch, marked, sanitize-html, ejs,
      puppeteer, the express response object) is reached through a record
      [World] of oracles, so every theorem quantifies over all behaviours
      of those collaborators, exceptions included.
    - Asynchronous code is sequential here: every [await] in the file
      is immediately awaited, so a handler is a state-and-exception
      computation over the response under construction and the trace of
      external calls. *)

From Stdlib Require Import List ZArith String Ascii Bool Lia Permutation Sorted.
From Stdlib Require Import DecimalString.
Import ListNotations.

Local Open Scope Z_scope.
Local Open Scope string_scope.
Local Open Scope list_scope.

(* ================================================================== *)
(** * JavaScript values *)
(* ================================================================== *)

(** The JSON scalars the file inspects, plus [undefined] for a missing
    property or query parameter. *)
Inductive jsval : Type :=
| JUndefined
| JNull
| JBool (b : bool)
| JNum (n : Z)
| JStr (s : string).

(** ToBoolean. *)
Definition truthy (v : jsval) : bool :=
  match v with
  | JUndefined | JNull => false
  | JBool b => b
  | JNum n => negb (n =? 0)%Z
  | JStr s => negb (s =? "")%string
  end.

(** [a || b]. *)
Definition js_or (a b : jsval) : jsval := if truthy a then a else b.

(** A field the API left out ([undefined]) or sent as [null]. *)
Definition absent (v : jsval) : Prop := v = JUndefined \/ v = JNull.

(* ================================================================== *)
(** * Array.prototype.sort and slice *)
(* ================================================================== *)

(** [arr.sort(cmp)]: ECMAScript (since ES2019; V8 since 7.0, Node 11)
    specifies a stable sort.  For a consistent comparator the stable sorted
    arrangement of an array is unique (see [js_sort_unique] below), so the
    engine's algorithm is denoted by any stable sorting function; this one
    inserts from the right.  [cmp a b < 0] places [a] first, [cmp a b = 0]
    keeps the order of the input. *)
Section Sort.
Context {A : Type} (cmp : A -> A -> Z).

Fixpoint js_insert (x : A) (l : list A) : list A :=
  match l with
  | [] => [x]
  | y :: ys => if (cmp x y <=? 0)%Z then x :: y :: ys else y :: js_insert x ys
  end.

Fixpoint js_sort (l : list A) : list A :=
  match l with
  | [] => []
  | x :: xs => js_insert x (js_sort xs)
  end.
End Sort.

(** [arr.slice(0, n)]. *)
Definition slice0 {A : Type} (n : nat) (l : list A) : list A := firstn n l.

(* ================================================================== *)
(** * Upstream records and the view model *)
(* ================================================================== *)

(** The body of [GET /users/{username}].  The optional fields, those the
    builder guards with [||], are [jsval]s. *)
Module User.
Record t : Type := mk {
  login : string;
  name : jsval;
  avatar_url : string;
  bio : jsval;
  company : jsval;
  location : jsval;
  email : jsval;
  blog : jsval;
  followers : Z;
  following : Z;
  public_repos : Z;
  created_at : string;
  html_url : string
}.
End User.

(** One entry of the body of [GET /users/{username}/repos]. *)
Module Repo.
Record t : Type := mk {
  name : string;
  description : jsval;
  stargazers_count : Z;
  forks_count : Z;
  language : jsval;
  html_url : string
}.
End Repo.

(** The [user] object of the template data. *)
Module ViewUser.
Record t : Type := mk {
  login : string;
  name : jsval;
  avatar : string;
  bio : jsval;
  company : jsval;
  location : jsval;
  email : jsval;
  blog : jsval;
  followers : Z;
  following : Z;
  publicRepos : Z;
  createdAt : string;
  profileUrl : string
}.
End ViewUser.

(** One entry of the [repos] array of the template data. *)
Module ViewRepo.
Record t : Type := mk {
  name : string;
  description : jsval;
  stars : Z;
  forks : Z;
  language : jsval;
  url : string
}.
End ViewRepo.

(** [(a, b) => b.stargazers_count - a.stargazers_count] *)
Definition byStars (a b : Repo.t) : Z :=
  Repo.stargazers_count b - Repo.stargazers_count a.

(** The arrow function given to [.map] in [buildTemplateData]. *)
Definition repoView (repo : Repo.t) : ViewRepo.t :=
  {| ViewRepo.name := Repo.name repo;
     ViewRepo.description := js_or (Repo.description repo) (JStr "No description");
     ViewRepo.stars := Repo.stargazers_count repo;
     ViewRepo.forks := Repo.forks_count repo;
     ViewRepo.language := js_or (Repo.language repo) (JStr "N/A");
     ViewRepo.url := Repo.html_url repo |}.

(** Step 3 of [buildTemplateData]:
    [reposData.sort(...).slice(0, 10).map(...)]. *)
Definition topRepos (reposData : list Repo.t) : list ViewRepo.t :=
  map repoView (slice0 10 (js_sort byStars reposData)).

(** The [user] object of step 5.  [toLocaleDateString] is the engine's
    date formatter. *)
Definition userView (toLocaleDateString : string -> string)
    (userData : User.t) : ViewUser.t :=
  {| ViewUser.login := User.login userData;
     ViewUser.name := js_or (User.name userData) (JStr (User.login userData));
     ViewUser.avatar := User.avatar_url userData;
     ViewUser.bio := js_or (User.bio userData) (JStr "No bio available");
     ViewUser.company := js_or (User.company userData) (JStr "");
     ViewUser.location := js_or (User.location userData) (JStr "");
     ViewUser.email := js_or (User.email userData) (JStr "");
     ViewUser.blog := js_or (User.blog userData) (JStr "");
     ViewUser.followers := User.followers userData;
     ViewUser.following := User.following userData;
     ViewUser.publicRepos := User.public_repos userData;
     ViewUser.createdAt := toLocaleDateString (User.created_at userData);
     ViewUser.profileUrl := User.html_url userData |}.

(** Template-literal interpolation [`${v}`] (ToString). *)
Definition js_toString (v : jsval) : string :=
  match v with
  | JUndefined => "undefined"
  | JNull => "null"
  | JBool true => "true"
  | JBool false => "false"
  | JNum n => NilZero.string_of_int (Z.to_int n)
  | JStr s => s
  end.

(** The double-quote character, for the messages that quote the username. *)
Definition dquote : string := String (ascii_of_nat 34) EmptyString.

(** [s.includes(sub)]. *)
Definition contains (sub s : string) : Prop :=
  exists pre post, s = (pre ++ sub ++ post)%string.

(* ================================================================== *)
(** * HTML fragments and the sanitizer's options *)
(* ================================================================== *)

(** An HTML fragment is represented by the element forest it denotes: what
    sanitize-html's parser hands to its filter, and what a browser builds
    from the string the function returns.  The empty string is the empty
    forest. *)
Definition Attribs : Type := list (string * string).

Local Unset Elimination Schemes.
Inductive node : Type :=
| Text (s : string)
| Element (tagName : string) (attribs : Attribs) (children : list node).
Local Set Elimination Schemes.

Definition Html : Type := list node.

Fixpoint elements_of (n : node) : list (string * Attribs) :=
  match n with
  | Text _ => []
  | Element t a ch => (t, a) :: flat_map elements_of ch
  end.

(** Every element of a fragment, at any depth, with its attributes. *)
Definition elements (h : Html) : list (string * Attribs) :=
  flat_map elements_of h.

(** [attribs[k]] *)
Fixpoint get_attr (k : string) (a : Attribs) : option string :=
  match a with
  | [] => None
  | (k', v) :: rest => if (k' =? k)%string then Some v else get_attr k rest
  end.

(** [attribs[k] = v] *)
Fixpoint set_attr (k v : string) (a : Attribs) : Attribs :=
  match a with
  | [] => [(k, v)]
  | (k', v') :: rest =>
      if (k' =? k)%string then (k, v) :: rest else (k', v') :: set_attr k v rest
  end.

Definition Transformer : Type := string -> Attribs -> string * Attribs.

(** The options object given to [sanitizeHtml]. *)
Record SanitizeOptions : Type := mkOptions {
  allowedTags : list string;
  allowedAttributes : list (string * list string);
  transformTags : list (string * Transformer)
}.

Fixpoint lookup {V : Type} (k : string) (m : list (string * V)) : option V :=
  match m with
  | [] => None
  | (k', v) :: rest => if (k' =? k)%string then Some v else lookup k rest
  end.

Definition mem (x : string) (l : list string) : bool :=
  existsb (String.eqb x) l.

(** Whether [allowedAttributes] lets attribute [k] stay on a [tag]
    element: listed for the tag itself or under ['*']. *)
Definition attr_allowed (o : SanitizeOptions) (tag k : string) : bool :=
  match lookup tag (allowedAttributes o) with
  | Some l => mem k l
  | None => false
  end
  ||
  match lookup "*" (allowedAttributes o) with
  | Some l => mem k l
  | None => false
  end.

(** The tag and attributes an opening tag has after [transformTags]: the
    transformer registered for its name, then the one registered for
    ['*'], when there are such. *)
Definition apply_transform (o : SanitizeOptions) (tag : string) (a : Attribs)
  : string * Attribs :=
  let named :=
    match lookup tag (transformTags o) with
    | Some f => f tag a
    | None => (tag, a)
    end in
  match lookup "*" (transformTags o) with
  | Some g => g (fst named) (snd named)
  | None => named
  end.

(** [sanitizeHtml.simpleTransform(newTagName, newAttribs, merge)], a helper
    of the sanitize-html package: the returned transformer renames the tag
    and, when [merge] is set, assigns each of [newAttribs] over the
    attributes already present (otherwise it replaces them). *)
Definition simpleTransform (newTagName : string) (newAttribs : Attribs)
    (merge : bool) : Transformer :=
  fun _ attribs =>
    (newTagName,
     if merge
     then fold_left (fun acc kv => set_attr (fst kv) (snd kv) acc) newAttribs attribs
     else newAttribs).

(** The options literal of [fetchUserReadmeHtml]; [defaults_allowedTags]
    is [sanitizeHtml.defaults.allowedTags], a constant of the package. *)
Definition readmeSanitizeOptions (defaults_allowedTags : list string)
  : SanitizeOptions :=
  {| allowedTags :=
       defaults_allowedTags ++ ["img"; "h1"; "h2"; "h3"; "details"; "summary"];
     allowedAttributes :=
       [ ("a", ["href"; "name"; "target"; "rel"]);
         ("img", ["src"; "alt"; "title"; "width"; "height"]);
         ("*", ["id"; "class"]) ];
     transformTags :=
       [ ("a", simpleTransform "a"
                 [("rel", "noopener noreferrer"); ("target", "_blank")] true) ] |}.

(* ================================================================== *)
(** * Errors, external collaborators, request state *)
(* ================================================================== *)

(** A thrown [Error]; the handlers only read [error.message]. *)
Record Error : Type := mkError { message : string }.

(** The completion of a call that may throw (or of an awaited promise that
    may reject). *)
Inductive Result (A : Type) : Type :=
| Ok (a : A)
| Throw (e : Error).
Arguments Ok {A} a.
Arguments Throw {A} e.

Definition Headers : Type := list (string * string).

(** What [await fetch(url, { headers })] gives: a rejection, or a response
    with its [status] and what [await response.json()] would give. *)
Inductive FetchOutcome (A : Type) : Type :=
| NetworkError (e : Error)
| Resp (status : Z) (json : Result A).
Arguments NetworkError {A} e.
Arguments Resp {A} status json.

(** [response.ok] of node-fetch: the status is in the range 200-299. *)
Definition ok (status : Z) : bool := (200 <=? status)%Z && (status <? 300)%Z.

(** The body of [GET /repos/{username}/{username}/readme]. *)
Record ReadmeMeta : Type := mkMeta { content : jsval }.

(** The object [buildTemplateData] returns. *)
Record TemplateData : Type := mkTemplateData {
  user : ViewUser.t;
  repos : list ViewRepo.t;
  readmeHtml : Html;
  generatedAt : string
}.

(** Everything the file calls and does not define. *)
Record World : Type := mkWorld {
  (** [process.env.GITHUB_TOKEN || ''] *)
  GITHUB_TOKEN : string;
  (** node-fetch, by endpoint of the upstream API *)
  fetch_user : string -> Headers -> FetchOutcome User.t;
  fetch_repos : string -> Headers -> FetchOutcome (list Repo.t);
  fetch_readme : string -> Headers -> FetchOutcome ReadmeMeta;
  (** [Buffer.from(content, 'base64').toString('utf8')] *)
  Buffer_from_base64 : jsval -> Result string;
  (** [marked.parse] *)
  marked_parse : string -> Result Html;
  (** [sanitizeHtml] and [sanitizeHtml.defaults.allowedTags] *)
  sanitizeHtml : SanitizeOptions -> Html -> Result Html;
  sanitize_defaults_allowedTags : list string;
  (** [new Date(s).toLocaleDateString()] and [new Date().toLocaleDateString()] *)
  toLocaleDateString : string -> string;
  today : string;
  (** [ejs.renderFile] on [views/template.ejs]; the second argument is the
      [showDownloadButton] property, when the data has one *)
  ejs_renderFile : TemplateData -> option bool -> Result string;
  (** puppeteer *)
  getPuppeteer : Result unit;
  puppeteer_launch : Result unit;
  browser_newPage : Result unit;
  page_setContent : string -> Result unit;
  page_emulateMediaType : string -> Result unit;
  page_pdf : Result (list Byte.byte);
  browser_close : Result unit;
  (** whether node accepts a header value ([res.setHeader] throws
      otherwise) *)
  header_valid : string -> string -> bool
}.

(** Calls that leave the process, in the order they are made. *)
Inductive Event : Type :=
| EvFetch (url : string) (headers : Headers)
| EvLog (msg : string)
| EvRenderFile (showDownloadButton : option bool)
| EvGetPuppeteer
| EvLaunchCall
| EvLaunched
| EvNewPage
| EvSetContent (html : string)
| EvEmulateMediaType (type : string)
| EvPdf
| EvClose.

Inductive Body : Type :=
| BText (s : string)
| BBuffer (b : list Byte.byte).

(** The express response object, as far as the handlers drive it. *)
Record Res : Type := mkRes {
  statusCode : Z;
  resHeaders : Headers;
  body : option Body;
  headersSent : bool
}.

Record St : Type := mkSt {
  res : Res;
  trace : list Event
}.

(** The response and trace a handler starts from. *)
Definition fresh : St :=
  {| res := {| statusCode := 200; resHeaders := []; body := None;
               headersSent := false |};
     trace := [] |}.

(* ================================================================== *)
(** * The computation monad: state and exceptions *)
(* ================================================================== *)

Definition M (A : Type) : Type := St -> St * Result A.

Definition ret {A : Type} (a : A) : M A := fun s => (s, Ok a).

Definition throw {A : Type} (e : Error) : M A := fun s => (s, Throw e).

Definition bind {A B : Type} (m : M A) (f : A -> M B) : M B :=
  fun s =>
    match m s with
    | (s1, Ok a) => f a s1
    | (s1, Throw e) => (s1, Throw e)
    end.

(** [try { body } catch (error) { handler }] *)
Definition try_catch {A : Type} (body : M A) (handler : Error -> M A) : M A :=
  fun s =>
    match body s with
    | (s1, Ok a) => (s1, Ok a)
    | (s1, Throw e) => handler e s1
    end.

(** [try { body } finally { fin }]: [fin] runs on both completions, and an
    exception of [fin] replaces the completion of [body]. *)
Definition try_finally {A : Type} (body : M A) (fin : M unit) : M A :=
  fun s =>
    match body s with
    | (s1, r) =>
        match fin s1 with
        | (s2, Ok _) => (s2, r)
        | (s2, Throw e) => (s2, Throw e)
        end
    end.

(** Awaiting (or calling) a collaborator whose completion is known. *)
Definition lift {A : Type} (r : Result A) : M A := fun s => (s, r).

(** The state after one more external call. *)
Definition push (e : Event) (s : St) : St :=
  {| res := res s; trace := trace s ++ [e] |}.

Definition emit (e : Event) : M unit := fun s => (push e s, Ok tt).

Declare Scope js_scope.
Delimit Scope js_scope with js.
Notation "x <- m ;; k" := (bind m (fun x => k))
  (at level 100, m at next level, right associativity) : js_scope.
Notation "m ;;; k" := (bind m (fun _ => k))
  (at level 100, right associativity) : js_scope.
Local Open Scope js_scope.

(** [console.log] / [console.error] *)
Definition console_log (msg : string) : M unit := emit (EvLog msg).

(* ================================================================== *)
(** * The express response *)
(* ================================================================== *)

Definition ERR_HTTP_HEADERS_SENT : Error :=
  mkError "Cannot set headers after they are sent to the client".

Definition ERR_INVALID_CHAR : Error :=
  mkError "Invalid character in header content".

(** [res.status(code)] *)
Definition res_status (code : Z) : M unit :=
  fun s =>
    ({| res := {| statusCode := code; resHeaders := resHeaders (res s);
                  body := body (res s); headersSent := headersSent (res s) |};
        trace := trace s |}, Ok tt).

(** [res.send(text)]: writes head and body; express sets the content type
    first, which throws once the head is out. *)
Definition res_send (text : string) : M unit :=
  fun s =>
    if headersSent (res s) then (s, Throw ERR_HTTP_HEADERS_SENT)
    else
      ({| res := {| statusCode := statusCode (res s);
                    resHeaders := resHeaders (res s);
                    body := Some (BText text); headersSent := true |};
          trace := trace s |}, Ok tt).

(** [res.end(buffer)] *)
Definition res_end (buffer : list Byte.byte) : M unit :=
  fun s =>
    if headersSent (res s) then (s, Ok tt)
    else
      ({| res := {| statusCode := statusCode (res s);
                    resHeaders := resHeaders (res s);
                    body := Some (BBuffer buffer); headersSent := true |};
          trace := trace s |}, Ok tt).

Section Handlers.
Variable w : World.

(** [res.setHeader(name, value)] *)
Definition res_setHeader (name value : string) : M unit :=
  fun s =>
    if headersSent (res s) then (s, Throw ERR_HTTP_HEADERS_SENT)
    else if negb (header_valid w name value) then (s, Throw ERR_INVALID_CHAR)
    else
      ({| res := {| statusCode := statusCode (res s);
                    resHeaders := resHeaders (res s) ++ [(name, value)];
                    body := body (res s);
                    headersSent := headersSent (res s) |};
          trace := trace s |}, Ok tt).

(* ================================================================ *)
(** * [fetchGitHubData] *)
(* ================================================================ *)

(** The [headers] object both fetchers build. *)
Definition requestHeaders : Headers :=
  [("User-Agent", "GitHub-to-PDF-App");
   ("Accept", "application/vnd.github.v3+json")]
  ++ (if (GITHUB_TOKEN w =? "")%string then []
      else [("Authorization", ("token " ++ GITHUB_TOKEN w)%string)]).

Definition fetchGitHubData {A : Type}
    (fetch : string -> Headers -> FetchOutcome A) (url : string) : M A :=
  let headers := requestHeaders in
  emit (EvFetch url headers) ;;;
  match fetch url headers with
  | NetworkError e => throw e
  | Resp status json =>
      if negb (ok status) then
        if (status =? 404)%Z then throw (mkError "User not found")
        else throw (mkError ("GitHub API error: " ++ js_toString (JNum status)))
      else lift json
  end.

(* ================================================================ *)
(** * [fetchUserReadmeHtml] *)
(* ================================================================ *)

Definition readmeMetaUrl (username : string) : string :=
  ("https://api.github.com/repos/" ++ username ++ "/" ++ username ++ "/readme")%string.

Definition fetchUserReadmeHtml (username : string) : M Html :=
  try_catch
    (let headers := requestHeaders in
     emit (EvFetch (readmeMetaUrl username) headers) ;;;
     match fetch_readme w (readmeMetaUrl username) headers with
     | NetworkError e => throw e
     | Resp status json =>
         if negb (ok status) then ret []
         else
           meta <- lift json ;;
           if negb (truthy (content meta)) then ret []
           else
             markdown <- lift (Buffer_from_base64 w (content meta)) ;;
             rawHtml <- lift (marked_parse w markdown) ;;
             safeHtml <- lift (sanitizeHtml w
                           (readmeSanitizeOptions (sanitize_defaults_allowedTags w))
                           rawHtml) ;;
             ret safeHtml
     end)
    (fun _ => ret []).

(* ================================================================ *)
(** * [buildTemplateData] *)
(* ================================================================ *)

Definition userUrl (username : string) : string :=
  ("https://api.github.com/users/" ++ username)%string.

Definition reposUrl (username : string) : string :=
  ("https://api.github.com/users/" ++ username ++ "/repos?per_page=100&sort=stars")%string.

Definition buildTemplateData (username : string) : M TemplateData :=
  userData <- fetchGitHubData (fetch_user w) (userUrl username) ;;
  reposData <- fetchGitHubData (fetch_repos w) (reposUrl username) ;;
  let topRepos := topRepos reposData in
  readmeHtml <- fetchUserReadmeHtml username ;;
  ret {| user := userView (toLocaleDateString w) userData;
         repos := topRepos;
         readmeHtml := readmeHtml;
         generatedAt := today w |}.

(* ================================================================ *)
(** * [GET /preview] *)
(* ================================================================ *)

(** [username] is [req.query.username]: [JUndefined] when the query has
    no such parameter. *)
Definition preview (username : jsval) : M unit :=
  if negb (truthy username) then
    res_status 400 ;;; res_send "Username parameter is required"
  else
    try_catch
      (templateData <- buildTemplateData (js_toString username) ;;
       html <- (emit (EvRenderFile (Some true)) ;;;
                lift (ejs_renderFile w templateData (Some true))) ;;
       res_send html)
      (fun error =>
         if (message error =? "User not found")%string then
           res_status 404 ;;;
           res_send ("GitHub user " ++ dquote ++ js_toString username
                       ++ dquote ++ " not found")%string
         else
           res_status 500 ;;;
           res_send ("Error generating preview: " ++ message error)%string).

(* ================================================================ *)
(** * [GET /pdf] *)
(* ================================================================ *)

(** The block guarded by [finally]: steps 6 to 8 on the launched
    browser.  [pdfBuffer] is [pdfData] as a [Buffer]
    ([Buffer.isBuffer(pdfData) ? pdfData : Buffer.from(pdfData)]): the
    same bytes. *)
Definition exportPdf (username : jsval) (html : string) : M unit :=
  emit EvNewPage ;;; lift (browser_newPage w) ;;;
  emit (EvSetContent html) ;;; lift (page_setContent w html) ;;;
  emit (EvEmulateMediaType "screen") ;;; lift (page_emulateMediaType w "screen") ;;;
  pdfData <- (emit EvPdf ;;; lift (page_pdf w)) ;;
  let pdfBuffer := pdfData in
  console_log ("PDF generated successfully for " ++ js_toString username)%string ;;;
  res_setHeader "Content-Type" "application/pdf" ;;;
  res_setHeader "Content-Disposition"
    ("attachment; filename=" ++ dquote ++ js_toString username
       ++ "-github-resume.pdf" ++ dquote)%string ;;;
  res_setHeader "Content-Length"
    (js_toString (JNum (Z.of_nat (List.length pdfBuffer)))) ;;;
  res_end pdfBuffer.

Definition pdf (username : jsval) : M unit :=
  if negb (truthy username) then
    res_status 400 ;;; res_send "Username parameter is required"
  else
    try_catch
      (console_log ("Fetching data for GitHub user: " ++ js_toString username)%string ;;;
       templateData <- buildTemplateData (js_toString username) ;;
       console_log ("Rendering template for " ++ js_toString username)%string ;;;
       html <- (emit (EvRenderFile None) ;;;
                lift (ejs_renderFile w templateData None)) ;;
       console_log "Generating PDF with Puppeteer..." ;;;
       emit EvGetPuppeteer ;;; lift (getPuppeteer w) ;;;
       emit EvLaunchCall ;;; lift (puppeteer_launch w) ;;;
       emit EvLaunched ;;;
       try_finally
         (exportPdf username html)
         (emit EvClose ;;; lift (browser_close w)))
      (fun error =>
         console_log "Error generating PDF:" ;;;
         if (message error =? "User not found")%string then
           res_status 404 ;;;
           res_send ("GitHub user " ++ dquote ++ js_toString username
                       ++ dquote ++ " not found")%string
         else
           res_status 500 ;;;
           res_send ("Error generating PDF: " ++ message error)%string).

End Handlers.

(* ================================================================== *)
(** * What is assumed of sanitize-html *)
(* ================================================================== *)

(** Attributes whose values sanitize-html inspects further (URL schemes,
    [srcset] candidates, class and style lists) and may therefore drop or
    rewrite even when the name is allowed. *)
Definition value_filtered (k : string) : bool :=
  mem k ["href"; "src"; "cite"; "srcset"; "class"; "style"].

(** The characters an attribute name may not have (NUL, tab, line feed,
    form feed, carriage return, space, [/], [<], [=], [>]); the package
    drops an attribute whose name has one, or is empty. *)
Definition invalid_name_char (c : ascii) : bool :=
  existsb (Ascii.eqb c)
    (map ascii_of_nat [0; 9; 10; 12; 13; 32; 47; 60; 61; 62]%nat).

Definition valid_attribute_name (k : string) : bool :=
  negb (k =? "")%string &&
  forallb (fun c => negb (invalid_name_char c)) (list_ascii_of_string k).

(** The contract of the package for one element [e] of its output under
    options [o]: [e] is the image under [transformTags] of some opening
    tag; its name is in [allowedTags]; its attribute names are allowed by
    [allowedAttributes]; and an allowed attribute of the transformed tag
    with a valid name and a non-empty value that is not inspected further
    is still there. *)
Definition element_ok (o : SanitizeOptions) (e : string * Attribs) : Prop :=
  exists t0 a0,
    fst e = fst (apply_transform o t0 a0) /\
    In (fst e) (allowedTags o) /\
    (forall k v, get_attr k (snd e) = Some v -> attr_allowed o (fst e) k = true) /\
    (forall k v,
        get_attr k (snd (apply_transform o t0 a0)) = Some v ->
        attr_allowed o (fst e) k = true ->
        valid_attribute_name k = true ->
        value_filtered k = false ->
        v <> ""%string ->
        get_attr k (snd e) = Some v).

(** [sanitize] honours the contract when called with options [o]. *)
Definition sanitize_contract
    (sanitize : SanitizeOptions -> Html -> Result Html) (o : SanitizeOptions)
  : Prop :=
  forall h out, sanitize o h = Ok out -> Forall (element_ok o) (elements out).

(** A world whose sanitizer honours the contract under the options of the
    README fetcher and whose default tag list, like that of every release
    of the package, has no [script]. *)
Definition sanitizer_trusted (w : World) : Prop :=
  sanitize_contract (sanitizeHtml w)
    (readmeSanitizeOptions (sanitize_defaults_allowedTags w)) /\
  ~ In "script"%string (sanitize_defaults_allowedTags w).

(** ** A reference sanitizer

    The tag and attribute filter of sanitize-html on a parsed fragment:
    transform, then keep the element when its name is allowed (with the
    allowed attributes), and otherwise drop it, together with its content
    for the tags whose text is not text. *)
Definition nonTextTags : list string := ["script"; "style"; "textarea"; "option"].

Definition filter_attribs (o : SanitizeOptions) (tag : string) (a : Attribs)
  : Attribs :=
  filter (fun kv => attr_allowed o tag (fst kv)) a.

Fixpoint sanitize_node (o : SanitizeOptions) (n : node) : list node :=
  match n with
  | Text s => [Text s]
  | Element t0 a0 ch =>
      let inner := flat_map (sanitize_node o) ch in
      let t := fst (apply_transform o t0 a0) in
      let a := snd (apply_transform o t0 a0) in
      if mem t (allowedTags o) then [Element t (filter_attribs o t a) inner]
      else if mem t nonTextTags then []
      else inner
  end.

Definition sanitize_reference (o : SanitizeOptions) (h : Html) : Result Html :=
  Ok (flat_map (sanitize_node o) h).

(** Structural induction on fragments. *)
Fixpoint node_forall_ind (P : node -> Prop)
    (HText : forall s, P (Text s))
    (HElement : forall t a ch, Forall P ch -> P (Element t a ch))
    (n : node) : P n :=
  match n with
  | Text s => HText s
  | Element t a ch =>
      HElement t a ch
        ((fix all (l : list node) : Forall P l :=
            match l with
            | [] => Forall_nil P
            | c :: cs => Forall_cons c (node_forall_ind P HText HElement c) (all cs)
            end) ch)
  end.

(* ================================================================== *)
(** * Predicates of the properties *)
(* ================================================================== *)

(** The name of an event-handler attribute ([onclick], [onerror], ...). *)
Definition event_handler (k : string) : bool := String.prefix "on" k.

(** ** URLs that carry script

    The scheme of an attribute value, read leniently, as sanitize-html
    reads it and more leniently than a browser does: characters of code 32
    and below are ignored wherever they stand, the scheme is a letter
    followed by letters, digits, [.], [-] and [+] up to the first colon,
    and case does not matter. *)
Definition is_control (c : ascii) : bool := (nat_of_ascii c <=? 32)%nat.

Fixpoint strip_controls (v : string) : string :=
  match v with
  | EmptyString => EmptyString
  | String c rest =>
      if is_control c then strip_controls rest else String c (strip_controls rest)
  end.

Definition is_upper (c : ascii) : bool :=
  (65 <=? nat_of_ascii c)%nat && (nat_of_ascii c <=? 90)%nat.

Definition is_lower (c : ascii) : bool :=
  (97 <=? nat_of_ascii c)%nat && (nat_of_ascii c <=? 122)%nat.

Definition is_digit (c : ascii) : bool :=
  (48 <=? nat_of_ascii c)%nat && (nat_of_ascii c <=? 57)%nat.

Definition is_scheme_char (c : ascii) : bool :=
  is_upper c || is_lower c || is_digit c
  || (c =? ".")%char || (c =? "-")%char || (c =? "+")%char.

Definition to_lower (c : ascii) : ascii :=
  if is_upper c then ascii_of_nat (nat_of_ascii c + 32) else c.

(** The rest of a scheme, in lower case: scheme characters up to a
    colon. *)
Fixpoint scheme_rest (v : string) : option string :=
  match v with
  | EmptyString => None
  | String c rest =>
      if (c =? ":")%char then Some EmptyString
      else if is_scheme_char c then
        match scheme_rest rest with
        | Some r => Some (String (to_lower c) r)
        | None => None
        end
      else None
  end.

(** The scheme of a value that has been stripped of its control
    characters. *)
Definition scheme_of (stripped : string) : option string :=
  match stripped with
  | EmptyString => None
  | String c rest =>
      if is_upper c || is_lower c then
        match scheme_rest rest with
        | Some r => Some (String (to_lower c) r)
        | None => None
        end
      else None
  end.

Definition url_scheme (v : string) : option string :=
  scheme_of (strip_controls v).

(** The schemes under which a URL is, or carries, a script. *)
Definition script_schemes : list string := ["javascript"; "vbscript"; "data"].

Definition script_url (v : string) : bool :=
  match url_scheme v with
  | Some scheme => mem scheme script_schemes
  | None => false
  end.

(** The attributes of HTML whose value is a URL that the browser may
    follow or load. *)
Definition url_carrier (k : string) : bool :=
  mem k ["href"; "src"; "cite"; "action"; "formaction"; "data"; "poster";
         "background"; "manifest"; "ping"; "longdesc"; "codebase"; "xlink:href"].

(** An element that carries no script: it is not a [script] element, it
    has no event-handler attribute, and none of its URL attributes holds
    a script URL. *)
Definition script_free (e : string * Attribs) : Prop :=
  fst e <> "script"%string /\
  (forall k, event_handler k = true -> get_attr k (snd e) = None) /\
  (forall k v,
      url_carrier k = true -> get_attr k (snd e) = Some v -> script_url v = false).

(** ** What is assumed of sanitize-html about URLs

    The attributes whose scheme the package checks
    ([allowedSchemesAppliedToAttributes], which the options of the file
    leave at its default). *)
Definition scheme_checked (k : string) : bool := mem k ["href"; "src"; "cite"].

(** The contract for one element of the output: the value of a checked
    attribute has no scheme, or one of [allowedSchemes]. *)
Definition url_values_ok (allowedSchemes : list string) (e : string * Attribs)
  : Prop :=
  forall k v,
    scheme_checked k = true -> get_attr k (snd e) = Some v ->
    match url_scheme v with
    | Some scheme => In scheme allowedSchemes
    | None => True
    end.

(** [sanitize], called with options [o] that name no schemes of their
    own, checks URLs against [allowedSchemes]. *)
Definition sanitize_url_contract
    (sanitize : SanitizeOptions -> Html -> Result Html) (o : SanitizeOptions)
    (allowedSchemes : list string) : Prop :=
  forall h out,
    sanitize o h = Ok out -> Forall (url_values_ok allowedSchemes) (elements out).

(** A world whose sanitizer is trusted for names and for URLs, the latter
    against [defaults_allowedSchemes], the package's
    [sanitizeHtml.defaults.allowedSchemes], which like that of every
    release has none of the script schemes. *)
Definition sanitizer_trusted_urls (w : World)
    (defaults_allowedSchemes : list string) : Prop :=
  sanitizer_trusted w /\
  sanitize_url_contract (sanitizeHtml w)
    (readmeSanitizeOptions (sanitize_defaults_allowedTags w))
    defaults_allowedSchemes /\
  Forall (fun scheme => ~ In scheme defaults_allowedSchemes) script_schemes.

(** ** A reference sanitizer that checks values

    The filter of [sanitize_node] with the package's tests on attribute
    values: an attribute is kept when its name is valid and allowed, its
    value is not empty (an empty [alt] is kept), and, for a checked
    attribute, its URL is not naughty.  The package reads the scheme
    after removing [<!-- -->] comments from the stripped value; a value
    that has a scheme before that removal has the same one after it (a
    scheme has no [<]), so the second test of [naughtyHref] changes no
    result and only makes that evident. *)
Definition reference_allowedSchemes : list string :=
  ["http"; "https"; "ftp"; "mailto"; "tel"].

Fixpoint clobber_comments (fuel : nat) (href : string) : string :=
  match fuel with
  | O => href
  | S fuel' =>
      match String.index 0 "<!--" href with
      | None => href
      | Some firstIndex =>
          match String.index (firstIndex + 4) "-->" href with
          | None => href
          | Some lastIndex =>
              clobber_comments fuel'
                (String.substring 0 firstIndex href
                 ++ String.substring (lastIndex + 3)
                      (String.length href - (lastIndex + 3)) href)%string
          end
      end
  end.

Definition naughty_scheme (allowedSchemes : list string) (stripped : string)
  : bool :=
  match scheme_of stripped with
  | Some scheme => negb (mem scheme allowedSchemes)
  | None => false
  end.

Definition naughtyHref (allowedSchemes : list string) (href : string) : bool :=
  let stripped := strip_controls href in
  naughty_scheme allowedSchemes
    (clobber_comments (String.length stripped) stripped)
  || naughty_scheme allowedSchemes stripped.

Definition keeps_attribute (allowedSchemes : list string) (o : SanitizeOptions)
    (tag : string) (kv : string * string) : bool :=
  valid_attribute_name (fst kv)
  && negb ((snd kv =? "")%string && negb (fst kv =? "alt")%string)
  && attr_allowed o tag (fst kv)
  && negb (scheme_checked (fst kv) && naughtyHref allowedSchemes (snd kv)).

Fixpoint sanitize_node_checked (allowedSchemes : list string)
    (o : SanitizeOptions) (n : node) : list node :=
  match n with
  | Text s => [Text s]
  | Element t0 a0 ch =>
      let inner := flat_map (sanitize_node_checked allowedSchemes o) ch in
      let t := fst (apply_transform o t0 a0) in
      let a := snd (apply_transform o t0 a0) in
      if mem t (allowedTags o)
      then [Element t (filter (keeps_attribute allowedSchemes o t) a) inner]
      else if mem t nonTextTags then []
      else inner
  end.

Definition sanitize_reference_checked (o : SanitizeOptions) (h : Html)
  : Result Html :=
  Ok (flat_map (sanitize_node_checked reference_allowedSchemes o) h).

(** A link that opens in a new context without opener access. *)
Definition link_policy (e : string * Attribs) : Prop :=
  fst e = "a"%string ->
  get_attr "target" (snd e) = Some "_blank"%string /\
  get_attr "rel" (snd e) = Some "noopener noreferrer"%string.

(** The URLs requested upstream, in order. *)
Definition fetched (t : list Event) : list string :=
  flat_map (fun e => match e with EvFetch url _ => [url] | _ => [] end) t.

Definition is_lifecycle (e : Event) : bool :=
  match e with EvLaunched | EvClose => true | _ => false end.

(** Operations on the browser or one of its pages. *)
Definition is_browser_op (e : Event) : bool :=
  match e with
  | EvLaunched | EvNewPage | EvSetContent _ | EvEmulateMediaType _
  | EvPdf | EvClose => true
  | _ => false
  end.

Definition starsDescending : ViewRepo.t -> ViewRepo.t -> Prop :=
  fun a b => (ViewRepo.stars a >= ViewRepo.stars b)%Z.

Definition hasStars (k : Z) (r : Repo.t) : bool :=
  (Repo.stargazers_count r =? k)%Z.

Definition viewHasStars (k : Z) (v : ViewRepo.t) : bool :=
  (ViewRepo.stars v =? k)%Z.

(** Descending star counts on upstream entries. *)
Definition desc (a b : Repo.t) : Prop :=
  (Repo.stargazers_count a >= Repo.stargazers_count b)%Z.

(** The completion of [fetchGitHubData], read off the response. *)
Definition fetchCompletion {A : Type} (o : FetchOutcome A) : Result A :=
  match o with
  | NetworkError e => Throw e
  | Resp status json =>
      if ok status then json
      else if (status =? 404)%Z then Throw (mkError "User not found")
      else Throw (mkError ("GitHub API error: " ++ js_toString (JNum status)))
  end.

(** The attribute names the options of the README sanitizer let through. *)
Definition readmeAttributeNames : list string :=
  ["href"; "name"; "target"; "rel"; "src"; "alt"; "title"; "width"; "height";
   "id"; "class"].

(** A failure of the README path: the request was rejected, the response
    was not a success, its body could not be read or has no content, or
    decoding, rendering or sanitizing threw. *)
Definition readme_failure (w : World) (username : string) : Prop :=
  match fetch_readme w (readmeMetaUrl username) (requestHeaders w) with
  | NetworkError _ => True
  | Resp status json =>
      ok status = false \/
      match json with
      | Throw _ => True
      | Ok meta =>
          truthy (content meta) = false \/
          match Buffer_from_base64 w (content meta) with
          | Throw _ => True
          | Ok markdown =>
              match marked_parse w markdown with
              | Throw _ => True
              | Ok rawHtml =>
                  exists e,
                    sanitizeHtml w
                      (readmeSanitizeOptions (sanitize_defaults_allowedTags w))
                      rawHtml = Throw e
              end
          end
      end
  end.

(** The upstream reports the account as absent: the profile call is
    answered 404, or it succeeds and the repositories call is answered
    404. *)
Definition reported_absent (w : World) (username : string) : Prop :=
  (exists json,
      fetch_user w (userUrl username) (requestHeaders w) = Resp 404 json) \/
  (exists status userData json,
      fetch_user w (userUrl username) (requestHeaders w) = Resp status (Ok userData) /\
      ok status = true /\
      fetch_repos w (reposUrl username) (requestHeaders w) = Resp 404 json).

(** Every event of [ext] satisfies [Q]. *)
Definition only (Q : Event -> bool) (ext : list Event) : Prop :=
  Forall (fun e => Q e = true) ext.

(** Whatever the state [m] starts from, it extends the trace by some
    events that satisfy [P]. *)
Definition emits {A : Type} (P : list Event -> Prop) (m : M A) : Prop :=
  forall s, exists ext, trace (fst (m s)) = trace s ++ ext /\ P ext.

Definition no_browser_op : list Event -> Prop :=
  only (fun e => negb (is_browser_op e)).

Definition no_lifecycle : list Event -> Prop :=
  only (fun e => negb (is_lifecycle e)).

(** The browser discipline on the events of one request: either the
    browser is never touched, or it is launched once and closed once,
    after the launch; everything done with it lies in between. *)
Definition browser_released (t : list Event) : Prop :=
  no_browser_op t \/
  exists pre mid post,
    t = pre ++ EvLaunched :: mid ++ EvClose :: post /\
    no_browser_op pre /\ no_lifecycle mid /\ no_browser_op post.

(* ================================================================== *)
(** * A concrete world *)
(* ================================================================== *)

(** One upstream with a single account, [octocat], whose profile leaves
    every optional field out, who owns twelve repositories and whose
    profile README carries a script, an event handler and a link with a
    target of its own.  Used to run the handlers on concrete requests. *)
Module Demo.

Definition octocat : User.t :=
  {| User.login := "octocat"; User.name := JNull;
     User.avatar_url := "https://avatars.githubusercontent.com/u/583231";
     User.bio := JNull; User.company := JUndefined; User.location := JNull;
     User.email := JNull; User.blog := JStr "";
     User.followers := 9; User.following := 9; User.public_repos := 12;
     User.created_at := "2011-01-25T18:44:36Z";
     User.html_url := "https://github.com/octocat" |}.

Definition repo (name : string) (stars : Z) : Repo.t :=
  {| Repo.name := name; Repo.description := JNull;
     Repo.stargazers_count := stars; Repo.forks_count := 0;
     Repo.language := JNull;
     Repo.html_url := ("https://github.com/octocat/" ++ name)%string |}.

Definition reposData : list Repo.t :=
  [ repo "a" 3; repo "b" 7; repo "c" 3; repo "d" 0; repo "e" 7; repo "f" 1;
    repo "g" 3; repo "h" 12; repo "i" 0; repo "j" 1; repo "k" 0; repo "l" 5 ].

Definition rawReadme : Html :=
  [ Element "h1" [] [Text "Hi there"];
    Element "script" [] [Text "alert(document.cookie)"];
    Element "p" []
      [ Element "a"
          [("href", "https://example.org"); ("target", "_self");
           ("onclick", "steal()")]
          [Text "my site"];
        Element "img" [("src", "x.png"); ("onerror", "steal()")] [] ] ].

Definition defaults_allowedTags : list string :=
  ["h3"; "h4"; "h5"; "h6"; "blockquote"; "p"; "a"; "ul"; "ol"; "nl"; "li";
   "b"; "i"; "strong"; "em"; "strike"; "code"; "hr"; "br"; "div"; "table";
   "thead"; "caption"; "tbody"; "tr"; "th"; "td"; "pre"].

Definition world : World :=
  {| GITHUB_TOKEN := "";
     fetch_user := fun url _ =>
       if (url =? "https://api.github.com/users/octocat")%string
       then Resp 200 (Ok octocat)
       else Resp 404 (Throw (mkError "unread"));
     fetch_repos := fun url _ =>
       if (url =? "https://api.github.com/users/octocat/repos?per_page=100&sort=stars")%string
       then Resp 200 (Ok reposData)
       else Resp 404 (Throw (mkError "unread"));
     fetch_readme := fun url _ =>
       if (url =? "https://api.github.com/repos/octocat/octocat/readme")%string
       then Resp 200 (Ok (mkMeta (JStr "IyBIaSB0aGVyZQ==")))
       else Resp 404 (Throw (mkError "unread"));
     Buffer_from_base64 := fun v =>
       match v with
       | JStr _ => Ok "# Hi there"%string
       | _ => Throw (mkError "The first argument must be of type string")
       end;
     marked_parse := fun _ => Ok rawReadme;
     sanitizeHtml := sanitize_reference;
     sanitize_defaults_allowedTags := defaults_allowedTags;
     toLocaleDateString := fun s => s;
     today := "11/2/2026";
     ejs_renderFile := fun _ _ => Ok "<html></html>"%string;
     getPuppeteer := Ok tt;
     puppeteer_launch := Ok tt;
     browser_newPage := Ok tt;
     page_setContent := fun _ => Ok tt;
     page_emulateMediaType := fun _ => Ok tt;
     page_pdf := Ok [Byte.x25; Byte.x50; Byte.x44; Byte.x46];
     browser_close := Ok tt;
     header_valid := fun _ _ => true |}.

(** The same upstream with a browser whose rasterization fails. *)
Definition brokenPdf : World :=
  {| GITHUB_TOKEN := GITHUB_TOKEN world;
     fetch_user := fetch_user world;
     fetch_repos := fetch_repos world;
     fetch_readme := fetch_readme world;
     Buffer_from_base64 := Buffer_from_base64 world;
     marked_parse := marked_parse world;
     sanitizeHtml := sanitizeHtml world;
     sanitize_defaults_allowedTags := sanitize_defaults_allowedTags world;
     toLocaleDateString := toLocaleDateString world;
     today := today world;
     ejs_renderFile := ejs_renderFile world;
     getPuppeteer := Ok tt;
     puppeteer_launch := Ok tt;
     browser_newPage := Ok tt;
     page_setContent := fun _ => Ok tt;
     page_emulateMediaType := fun _ => Ok tt;
     page_pdf := Throw (mkError "Protocol error (Page.printToPDF)");
     browser_close := Ok tt;
     header_valid := header_valid world |}.

End Demo.

(* ================================================================== *)
(** * The cached puppeteer module *)
(* ================================================================== *)

(** [getPuppeteer] with the variable it caches in.  [cachedPuppeteer]
    belongs to the process, not to a request, so it is threaded through the
    calls; [imports] counts the dynamic imports made.  [Mod] is what
    [import('puppeteer')] resolves to and what the function returns,
    [default] its [default] property when there is a truthy one, and the
    first argument of [getPuppeteer] what awaiting the import would give
    at that call. *)
Module PuppeteerCache.
Section Cache.
Variable Mod : Type.
Variable default : Mod -> option Mod.

Record State : Type := mkState {
  cachedPuppeteer : option Mod;
  imports : nat
}.

(** [let cachedPuppeteer = null] *)
Definition initial : State := {| cachedPuppeteer := None; imports := 0 |}.

Definition getPuppeteer (import : Result Mod) (s : State) : State * Result Mod :=
  match cachedPuppeteer s with
  | Some cached => (s, Ok cached)
  | None =>
      match import with
      | Throw e =>
          ({| cachedPuppeteer := None; imports := S (imports s) |}, Throw e)
      | Ok mod_ =>
          let puppeteer :=
            match default mod_ with
            | Some d => d
            | None => mod_
            end in
          ({| cachedPuppeteer := Some puppeteer; imports := S (imports s) |},
           Ok puppeteer)
      end
  end.

(** A series of calls, one import outcome per call, from the oldest. *)
Fixpoint calls (outcomes : list (Result Mod)) (s : State)
  : State * list (Result Mod) :=
  match outcomes with
  | [] => (s, [])
  | import :: rest =>
      let (s1, r) := getPuppeteer import s in
      let (s2, rs) := calls rest s1 in
      (s2, r :: rs)
  end.
End Cache.
End PuppeteerCache.

(* ================================================================== *)
(** * Further predicates *)
(* ================================================================== *)

(** Calls into puppeteer: loading it, launching, and everything on a
    browser or page. *)
Definition is_puppeteer (e : Event) : bool :=
  match e with
  | EvGetPuppeteer | EvLaunchCall => true
  | _ => is_browser_op e
  end.

(** The upstream answers the profile call, or after a successful profile
    call the repositories call, with the non-success [status]. *)
Definition upstream_refuses (w : World) (username : string) (status : Z) : Prop :=
  (exists json,
      fetch_user w (userUrl username) (requestHeaders w) = Resp status json) \/
  (exists st userData json,
      fetch_user w (userUrl username) (requestHeaders w) = Resp st (Ok userData) /\
      ok st = true /\
      fetch_repos w (reposUrl username) (requestHeaders w) = Resp status json).

(** Every step of the export stage succeeds for the page [html] and the
    request of [username], up to and including the close. *)
Definition export_succeeds (w : World) (username : jsval) (html : string)
    (pdfData : list Byte.byte) : Prop :=
  getPuppeteer w = Ok tt /\
  puppeteer_launch w = Ok tt /\
  browser_newPage w = Ok tt /\
  page_setContent w html = Ok tt /\
  page_emulateMediaType w "screen" = Ok tt /\
  page_pdf w = Ok pdfData /\
  header_valid w "Content-Type" "application/pdf" = true /\
  header_valid w "Content-Disposition"
    ("attachment; filename=" ++ dquote ++ js_toString username
       ++ "-github-resume.pdf" ++ dquote)%string = true /\
  header_valid w "Content-Length"
    (js_toString (JNum (Z.of_nat (List.length pdfData)))) = true /\
  browser_close w = Ok tt.

(** The README of [username] went through every stage and came out of
    the sanitizer as [safeHtml]: the response was a success with a truthy
    [content], which was decoded, rendered by marked, and sanitized under
    the options of the README fetcher. *)
Definition readme_pipeline (w : World) (username : string) (safeHtml : Html)
  : Prop :=
  exists status meta markdown rawHtml,
    fetch_readme w (readmeMetaUrl username) (requestHeaders w)
      = Resp status (Ok meta) /\
    ok status = true /\
    truthy (content meta) = true /\
    Buffer_from_base64 w (content meta) = Ok markdown /\
    marked_parse w markdown = Ok rawHtml /\
    sanitizeHtml w (readmeSanitizeOptions (sanitize_defaults_allowedTags w)) rawHtml
      = Ok safeHtml.

(** What a completion of [/pdf] looks like: a response is out; and a
    rejection means the PDF was sent and the close then failed. *)
Definition pdf_answered (w : World) (out : St * Result unit) : Prop :=
  headersSent (res (fst out)) = true /\
  (exists b, body (res (fst out)) = Some b) /\
  (forall e, snd out = Throw e ->
     e = ERR_HTTP_HEADERS_SENT /\
     (exists e', browser_close w = Throw e') /\
     exists pdfData,
       page_pdf w = Ok pdfData /\ body (res (fst out)) = Some (BBuffer pdfData)) /\
  (browser_close w = Ok tt -> snd out = Ok tt).

(* ================================================================== *)
(** * Further concrete worlds *)
(* ================================================================== *)

Module Cases.

(** The upstream of the concrete world once the rate limit is spent:
    every profile call is answered 403. *)
Definition rateLimited : World :=
  {| GITHUB_TOKEN := "";
     fetch_user := fun _ _ => Resp 403 (Throw (mkError "unread"));
     fetch_repos := fetch_repos Demo.world;
     fetch_readme := fetch_readme Demo.world;
     Buffer_from_base64 := Buffer_from_base64 Demo.world;
     marked_parse := marked_parse Demo.world;
     sanitizeHtml := sanitizeHtml Demo.world;
     sanitize_defaults_allowedTags := sanitize_defaults_allowedTags Demo.world;
     toLocaleDateString := toLocaleDateString Demo.world;
     today := today Demo.world;
     ejs_renderFile := ejs_renderFile Demo.world;
     getPuppeteer := Ok tt;
     puppeteer_launch := Ok tt;
     browser_newPage := Ok tt;
     page_setContent := fun _ => Ok tt;
     page_emulateMediaType := fun _ => Ok tt;
     page_pdf := page_pdf Demo.world;
     browser_close := Ok tt;
     header_valid := header_valid Demo.world |}.

(** The concrete world with a token configured and a browser that
    rasterizes but cannot be closed. *)
Definition closeFails : World :=
  {| GITHUB_TOKEN := "ghp_example";
     fetch_user := fetch_user Demo.world;
     fetch_repos := fetch_repos Demo.world;
     fetch_readme := fetch_readme Demo.world;
     Buffer_from_base64 := Buffer_from_base64 Demo.world;
     marked_parse := marked_parse Demo.world;
     sanitizeHtml := sanitizeHtml Demo.world;
     sanitize_defaults_allowedTags := sanitize_defaults_allowedTags Demo.world;
     toLocaleDateString := toLocaleDateString Demo.world;
     today := today Demo.world;
     ejs_renderFile := ejs_renderFile Demo.world;
     getPuppeteer := Ok tt;
     puppeteer_launch := Ok tt;
     browser_newPage := Ok tt;
     page_setContent := fun _ => Ok tt;
     page_emulateMediaType := fun _ => Ok tt;
     page_pdf := page_pdf Demo.world;
     browser_close := Throw (mkError "Protocol error: Connection closed.");
     header_valid := header_valid Demo.world |}.

(** A README that hides script in its links: a [javascript:] URL
    written in mixed case with a tab inside, one behind a comment, one on
    an image, next to an ordinary link. *)
Definition hostileReadme : Html :=
  [ Element "p" []
      [ Element "a"
          [("href", "JaVa" ++ String (ascii_of_nat 9) "Script:alert(1)")%string]
          [Text "click"];
        Element "a" [("href", "<!-- -->javascript:alert(2)")] [Text "here"];
        Element "img" [("src", "javascript:alert(3)"); ("alt", "")] [];
        Element "a" [("href", "https://example.org/")] [Text "my site"] ];
    Element "script" [] [Text "alert(4)"] ].

(** The concrete world with that README and the checking sanitizer. *)
Definition hostile : World :=
  {| GITHUB_TOKEN := "";
     fetch_user := fetch_user Demo.world;
     fetch_repos := fetch_repos Demo.world;
     fetch_readme := fetch_readme Demo.world;
     Buffer_from_base64 := Buffer_from_base64 Demo.world;
     marked_parse := fun _ => Ok hostileReadme;
     sanitizeHtml := sanitize_reference_checked;
     sanitize_defaults_allowedTags := sanitize_defaults_allowedTags Demo.world;
     toLocaleDateString := toLocaleDateString Demo.world;
     today := today Demo.world;
     ejs_renderFile := ejs_renderFile Demo.world;
     getPuppeteer := Ok tt;
     puppeteer_launch := Ok tt;
     browser_newPage := Ok tt;
     page_setContent := fun _ => Ok tt;
     page_emulateMediaType := fun _ => Ok tt;
     page_pdf := page_pdf Demo.world;
     browser_close := Ok tt;
     header_valid := header_valid Demo.world |}.

End Cases.

(* ================================================================== *)
(** * The sort *)
(* ================================================================== *)

Section SortFacts.
Context {A : Type} (cmp : A -> A -> Z).

Lemma js_insert_perm (x : A) (l : list A) :
  Permutation (js_insert cmp x l) (x :: l).
Proof.
  induction l as [|y ys IH]; simpl.
  - apply Permutation_refl.
  - destruct (cmp x y <=? 0)%Z.
    + apply Permutation_refl.
    + eapply Permutation_trans; [apply perm_skip, IH | apply perm_swap].
Qed.

Lemma js_sort_perm (l : list A) : Permutation (js_sort cmp l) l.
Proof.
  induction l as [|x xs IH]; simpl.
  - constructor.
  - eapply Permutation_trans; [apply js_insert_perm | now apply perm_skip].
Qed.

Lemma js_sort_length (l : list A) : List.length (js_sort cmp l) = List.length l.
Proof. apply Permutation_length, js_sort_perm. Qed.
End SortFacts.

Lemma js_insert_sorted (x : Repo.t) (l : list Repo.t) :
  StronglySorted desc l -> StronglySorted desc (js_insert byStars x l).
Proof.
  induction l as [|y ys IH]; intros Hs; simpl.
  - repeat constructor.
  - inversion Hs as [|? ? Hys Hall]; subst.
    unfold byStars at 1.
    destruct (Z.leb_spec (Repo.stargazers_count y - Repo.stargazers_count x) 0) as [Hle|Hgt].
    + constructor; [exact Hs|].
      constructor; [unfold desc; lia|].
      eapply Forall_impl; [|exact Hall].
      unfold desc; intros; lia.
    + constructor; [now apply IH|].
      apply Forall_forall; intros z Hz.
      apply (Permutation_in _ (js_insert_perm byStars x ys)) in Hz.
      destruct Hz as [<-|Hz].
      * unfold desc; lia.
      * rewrite Forall_forall in Hall; now apply Hall.
Qed.

Lemma js_sort_sorted (l : list Repo.t) : StronglySorted desc (js_sort byStars l).
Proof.
  induction l as [|x xs IH]; simpl.
  - constructor.
  - now apply js_insert_sorted.
Qed.

(** Insertion never moves an entry past one with the same star count. *)
Lemma js_insert_filter (k : Z) (x : Repo.t) (l : list Repo.t) :
  filter (hasStars k) (js_insert byStars x l) = filter (hasStars k) (x :: l).
Proof.
  induction l as [|y ys IH]; [reflexivity|].
  cbn [js_insert]. unfold byStars at 1.
  destruct (Z.leb_spec (Repo.stargazers_count y - Repo.stargazers_count x) 0) as [Hle|Hgt];
    [reflexivity|].
  cbn [filter] in *. rewrite IH. unfold hasStars.
  destruct (Z.eqb_spec (Repo.stargazers_count y) k);
    destruct (Z.eqb_spec (Repo.stargazers_count x) k); try reflexivity; lia.
Qed.

Lemma js_sort_stable (k : Z) (l : list Repo.t) :
  filter (hasStars k) (js_sort byStars l) = filter (hasStars k) l.
Proof.
  induction l as [|x xs IH]; [reflexivity|].
  cbn [js_sort]. rewrite js_insert_filter. cbn [filter]. now rewrite IH.
Qed.

(** Two descending arrangements with the same entries of each star count,
    in the same order, are the same list. *)
Lemma hasStars_self (a : Repo.t) : hasStars (Repo.stargazers_count a) a = true.
Proof. unfold hasStars. apply Z.eqb_refl. Qed.

Lemma filter_hasStars_head (a : Repo.t) (t : list Repo.t) :
  filter (hasStars (Repo.stargazers_count a)) (a :: t)
  = a :: filter (hasStars (Repo.stargazers_count a)) t.
Proof. cbn [filter]. now rewrite hasStars_self. Qed.

Lemma sorted_stable_unique (l1 : list Repo.t) :
  forall l2,
    StronglySorted desc l1 -> StronglySorted desc l2 ->
    (forall k, filter (hasStars k) l1 = filter (hasStars k) l2) ->
    l1 = l2.
Proof.
  induction l1 as [|a t1 IH]; intros l2 H1 H2 Hf.
  - destruct l2 as [|b t2]; [reflexivity|].
    specialize (Hf (Repo.stargazers_count b)).
    rewrite filter_hasStars_head in Hf. discriminate.
  - destruct l2 as [|b t2].
    + specialize (Hf (Repo.stargazers_count a)).
      rewrite filter_hasStars_head in Hf. discriminate.
    + inversion H1 as [|? ? Ht1 Ha]; subst.
      inversion H2 as [|? ? Ht2 Hb]; subst.
      rewrite Forall_forall in Ha, Hb.
      assert (Hab : Repo.stargazers_count a = Repo.stargazers_count b).
      { assert (In a (filter (hasStars (Repo.stargazers_count a)) (b :: t2))) as Hina.
        { rewrite <- Hf, filter_hasStars_head. now left. }
        assert (In b (filter (hasStars (Repo.stargazers_count b)) (a :: t1))) as Hinb.
        { rewrite Hf, filter_hasStars_head. now left. }
        apply filter_In in Hina as [Hina _]. apply filter_In in Hinb as [Hinb _].
        assert (Repo.stargazers_count b >= Repo.stargazers_count a)%Z.
        { destruct Hina as [->|Hin]; [lia|]. apply (Hb _ Hin). }
        assert (Repo.stargazers_count a >= Repo.stargazers_count b)%Z.
        { destruct Hinb as [->|Hin]; [lia|]. apply (Ha _ Hin). }
        lia. }
      assert (Hhead := Hf (Repo.stargazers_count a)).
      rewrite filter_hasStars_head in Hhead.
      rewrite Hab, filter_hasStars_head in Hhead.
      injection Hhead as -> Htail.
      f_equal. apply IH; trivial.
      intros k. specialize (Hf k). cbn [filter] in Hf.
      destruct (hasStars k b) eqn:Hk; [|exact Hf].
      now injection Hf.
Qed.

(** The result of the sort is determined by the language's contract
    (sorted by the comparator, stable), whatever the engine's algorithm. *)
Lemma js_sort_unique (l sorted : list Repo.t) :
  StronglySorted desc sorted ->
  (forall k, filter (hasStars k) sorted = filter (hasStars k) l) ->
  sorted = js_sort byStars l.
Proof.
  intros Hs Hf. apply sorted_stable_unique; trivial.
  - apply js_sort_sorted.
  - intros k. now rewrite js_sort_stable.
Qed.

Lemma filter_firstn_prefix {A : Type} (f : A -> bool) (n : nat) (l : list A) :
  exists m, filter f (firstn n l) = firstn m (filter f l).
Proof.
  revert n; induction l as [|x xs IH]; intros [|n]; cbn.
  - now exists 0%nat.
  - now exists 0%nat.
  - now exists 0%nat.
  - destruct (IH n) as [m Hm]. destruct (f x).
    + exists (S m). cbn. now rewrite Hm.
    + now exists m.
Qed.

Lemma StronglySorted_firstn {A : Type} (R : A -> A -> Prop) (n : nat) (l : list A) :
  StronglySorted R l -> StronglySorted R (firstn n l).
Proof.
  revert n; induction l as [|x xs IH]; intros [|n] Hs; cbn; try constructor.
  - inversion Hs; subst. now apply IH.
  - inversion Hs as [|? ? _ Hall]; subst.
    rewrite Forall_forall in *. intros y Hy. apply Hall.
    rewrite <- (firstn_skipn n xs). apply in_or_app. now left.
Qed.

Lemma StronglySorted_repoView (l : list Repo.t) :
  StronglySorted desc l -> StronglySorted starsDescending (map repoView l).
Proof.
  induction 1 as [|x xs _ IH Hall]; cbn; constructor; trivial.
  rewrite Forall_forall in *. intros v Hv.
  apply in_map_iff in Hv as [r [<- Hr]]. exact (Hall r Hr).
Qed.

Lemma filter_repoView (k : Z) (l : list Repo.t) :
  filter (viewHasStars k) (map repoView l) = map repoView (filter (hasStars k) l).
Proof.
  induction l as [|x xs IH]; [reflexivity|].
  cbn. unfold viewHasStars at 1, hasStars at 1. cbn.
  destruct (Repo.stargazers_count x =? k)%Z; cbn; now rewrite IH.
Qed.

(* ================================================================== *)
(** * The view-model builder *)
(* ================================================================== *)

(** C3.  For every raw repository list the [repos] array of the view
    model is the image of a sub-list [chosen] of distinct entries of the
    input (the input is a rearrangement of [chosen] followed by the
    entries left out); it has exactly 10 entries when the input has 10 or
    more, and all of them (nothing is left out) when the input has fewer;
    and it is sorted by star count, descending. *)
Theorem C3_top_repos_shape (reposData : list Repo.t) :
  exists chosen rest : list Repo.t,
    topRepos reposData = map repoView chosen /\
    Permutation (chosen ++ rest) reposData /\
    (10 <= List.length reposData -> List.length (topRepos reposData) = 10)%nat /\
    (List.length reposData < 10 ->
       List.length (topRepos reposData) = List.length reposData /\ rest = [])%nat /\
    StronglySorted starsDescending (topRepos reposData).
Proof.
  exists (firstn 10 (js_sort byStars reposData)),
         (skipn 10 (js_sort byStars reposData)).
  unfold topRepos, slice0.
  rewrite length_map, length_firstn, js_sort_length.
  repeat split.
  - rewrite firstn_skipn. apply js_sort_perm.
  - lia.
  - lia.
  - apply skipn_all2. rewrite js_sort_length. lia.
  - apply StronglySorted_repoView, StronglySorted_firstn, js_sort_sorted.
Qed.

(** C8.  The sort is stable, and so is what the builder makes of it: for
    every star count [k], the entries with [k] stars keep the order of the
    API's list through the sort, and those that reach the [repos] array
    are the first ones of the API's list, in that order. *)
Theorem C8_sort_is_stable (reposData : list Repo.t) (k : Z) :
  filter (hasStars k) (js_sort byStars reposData) = filter (hasStars k) reposData /\
  exists n : nat,
    filter (viewHasStars k) (topRepos reposData)
    = map repoView (firstn n (filter (hasStars k) reposData)).
Proof.
  split; [apply js_sort_stable|].
  unfold topRepos, slice0. rewrite filter_repoView.
  destruct (filter_firstn_prefix (hasStars k) 10 (js_sort byStars reposData)) as [n Hn].
  exists n. now rewrite Hn, js_sort_stable.
Qed.

(** The twelve repositories of the concrete world: ten come out, by
    stars, and equal counts keep the API's order ([b] before [e]; [a], [c],
    [g]; [f] before [j]; of the three with no star only the first). *)
Example demo_topRepos :
  map (fun v => (ViewRepo.name v, ViewRepo.stars v)) (topRepos Demo.reposData)
  = [("h", 12); ("b", 7); ("e", 7); ("l", 5); ("a", 3); ("c", 3); ("g", 3);
     ("f", 1); ("j", 1); ("d", 0)]%string.
Proof. vm_compute. reflexivity. Qed.

Lemma js_or_absent (a : jsval) (placeholder : string) :
  absent a -> js_or a (JStr placeholder) = JStr placeholder.
Proof. intros [->| ->]; reflexivity. Qed.

Lemma js_or_never_absent (a : jsval) (placeholder : string) :
  ~ absent (js_or a (JStr placeholder)).
Proof.
  unfold js_or. destruct (truthy a) eqn:E.
  - intros [->| ->]; discriminate.
  - intros [H|H]; discriminate.
Qed.

(** C4.  Each optional profile field the API left out (or sent as [null])
    comes out of the builder as its placeholder, a string: the login for
    [name], ['No bio available'] for [bio], the empty string for
    [company], [location], [email] and [blog]; and whatever the API sent,
    none of the six is [null] or missing in the view model. *)
Theorem C4_placeholders (fmt : string -> string) (userData : User.t) :
  let v := userView fmt userData in
  ((absent (User.name userData) -> ViewUser.name v = JStr (User.login userData)) /\
   (absent (User.bio userData) -> ViewUser.bio v = JStr "No bio available") /\
   (absent (User.company userData) -> ViewUser.company v = JStr "") /\
   (absent (User.location userData) -> ViewUser.location v = JStr "") /\
   (absent (User.email userData) -> ViewUser.email v = JStr "") /\
   (absent (User.blog userData) -> ViewUser.blog v = JStr "")) /\
  (~ absent (ViewUser.name v) /\ ~ absent (ViewUser.bio v) /\
   ~ absent (ViewUser.company v) /\ ~ absent (ViewUser.location v) /\
   ~ absent (ViewUser.email v) /\ ~ absent (ViewUser.blog v)).
Proof.
  cbn. split.
  - repeat split; apply js_or_absent.
  - repeat split; apply js_or_never_absent.
Qed.

(** The profile of the concrete world leaves all six fields out. *)
Example demo_userView :
  let v := userView (fun s => s) Demo.octocat in
  (ViewUser.name v, ViewUser.bio v, ViewUser.company v,
   ViewUser.location v, ViewUser.email v, ViewUser.blog v)
  = (JStr "octocat", JStr "No bio available", JStr "", JStr "", JStr "", JStr "").
Proof. reflexivity. Qed.

(* ================================================================== *)
(** * Running computations *)
(* ================================================================== *)

Lemma bind_run {A B : Type} (m : M A) (f : A -> M B) (s : St) :
  bind m f s
  = match m s with
    | (s1, Ok a) => f a s1
    | (s1, Throw e) => (s1, Throw e)
    end.
Proof. reflexivity. Qed.

Lemma fetchGitHubData_run {A : Type} (w : World)
    (fetch : string -> Headers -> FetchOutcome A) (url : string) (s : St) :
  fetchGitHubData w fetch url s
  = (push (EvFetch url (requestHeaders w)) s,
     fetchCompletion (fetch url (requestHeaders w))).
Proof.
  unfold fetchGitHubData, fetchCompletion, bind, emit, throw, lift.
  destruct (fetch url (requestHeaders w)) as [e|status json]; [reflexivity|].
  destruct (ok status); [reflexivity|]. cbn [negb].
  destruct (status =? 404)%Z; reflexivity.
Qed.

(* ================================================================== *)
(** * The README fetcher *)
(* ================================================================== *)

Lemma get_set_attr_same (k v : string) (a : Attribs) :
  get_attr k (set_attr k v a) = Some v.
Proof.
  induction a as [|[k' v'] rest IH]; cbn.
  - now rewrite String.eqb_refl.
  - destruct (k' =? k)%string eqn:E; cbn.
    + now rewrite String.eqb_refl.
    + now rewrite E.
Qed.

Lemma get_set_attr_other (k k0 v : string) (a : Attribs) :
  k0 <> k -> get_attr k (set_attr k0 v a) = get_attr k a.
Proof.
  intros Hne. induction a as [|[k' v'] rest IH]; cbn.
  - apply String.eqb_neq in Hne. now rewrite Hne.
  - destruct (k' =? k0)%string eqn:E; cbn.
    + apply String.eqb_eq in E. subst k'.
      apply String.eqb_neq in Hne. now rewrite Hne.
    + destruct (k' =? k)%string; trivial.
Qed.

Lemma mem_In (x : string) (l : list string) : mem x l = true -> In x l.
Proof.
  unfold mem. intros H. apply existsb_exists in H as [y [Hy E]].
  apply String.eqb_eq in E. now subst.
Qed.

Lemma readme_attr_allowed (d : list string) (t k : string) :
  attr_allowed (readmeSanitizeOptions d) t k = true -> In k readmeAttributeNames.
Proof.
  unfold attr_allowed.
  change (lookup "*" (allowedAttributes (readmeSanitizeOptions d)))
    with (Some ["id"; "class"]%string).
  cbn [allowedAttributes readmeSanitizeOptions lookup].
  intros H. apply orb_true_iff in H as [H|H].
  - destruct ("a" =? t)%string; [|destruct ("img" =? t)%string; [|destruct ("*" =? t)%string]];
      try discriminate; apply mem_In in H; cbn in H |- *; intuition.
  - apply mem_In in H. cbn in H |- *. intuition.
Qed.

Lemma readme_attr_no_handler (k : string) :
  In k readmeAttributeNames -> event_handler k = false.
Proof.
  cbn. intros H.
  repeat (destruct H as [<-|H]; [reflexivity|]). contradiction.
Qed.

Lemma readme_tag_not_script (d : list string) (t : string) :
  ~ In "script"%string d ->
  In t (allowedTags (readmeSanitizeOptions d)) -> t <> "script"%string.
Proof.
  intros Hd Hin ->. cbn [allowedTags readmeSanitizeOptions] in Hin.
  apply in_app_or in Hin as [Hin|Hin]; [now apply Hd|].
  cbn in Hin. repeat (destruct Hin as [Hin|Hin]; [discriminate|]). contradiction.
Qed.

(** What the [transformTags] entry makes of an opening tag that comes out
    as a link. *)
Lemma readme_transform_link (d : list string) (t0 : string) (a0 : Attribs) :
  fst (apply_transform (readmeSanitizeOptions d) t0 a0) = "a"%string ->
  get_attr "target" (snd (apply_transform (readmeSanitizeOptions d) t0 a0))
    = Some "_blank"%string /\
  get_attr "rel" (snd (apply_transform (readmeSanitizeOptions d) t0 a0))
    = Some "noopener noreferrer"%string.
Proof.
  unfold apply_transform.
  change (lookup "*" (transformTags (readmeSanitizeOptions d))) with (@None Transformer).
  cbn [transformTags readmeSanitizeOptions lookup].
  destruct ("a" =? t0)%string eqn:E.
  - intros _. cbn [simpleTransform snd fold_left fst]. split.
    + apply get_set_attr_same.
    + rewrite get_set_attr_other by discriminate. apply get_set_attr_same.
  - cbn. intros ->. discriminate.
Qed.

(** Every element the contract admits under the README options is no
    [script] element, has no event-handler attribute and, when a link,
    carries the link policy. *)
Lemma element_ok_readme (d : list string) (e : string * Attribs) :
  ~ In "script"%string d ->
  element_ok (readmeSanitizeOptions d) e ->
  (fst e <> "script"%string /\
   forall k, event_handler k = true -> get_attr k (snd e) = None) /\
  link_policy e.
Proof.
  intros Hd (t0 & a0 & Htag & Hin & Hnames & Hkept). split; [split|].
  - eapply readme_tag_not_script; eauto.
  - intros k Hk. destruct (get_attr k (snd e)) as [v|] eqn:E; [|reflexivity].
    apply Hnames, readme_attr_allowed, readme_attr_no_handler in E. congruence.
  - intros Ha. rewrite Ha in Htag. symmetry in Htag.
    destruct (readme_transform_link d t0 a0 Htag) as [Ht Hr].
    rewrite Ha in Hkept. split.
    + apply Hkept; trivial; discriminate.
    + apply Hkept; trivial; discriminate.
Qed.

(** Of the attribute names the README options let through, the URL
    carriers are among those whose scheme the package checks. *)
Lemma readme_url_carriers_checked (k : string) :
  In k readmeAttributeNames -> url_carrier k = true -> scheme_checked k = true.
Proof.
  cbn. intros H.
  repeat (destruct H as [<-|H]; [cbn; intros; first [reflexivity|discriminate]|]).
  contradiction.
Qed.

Lemma allowed_scheme_is_no_script (allowedSchemes : list string) (v : string) :
  Forall (fun scheme => ~ In scheme allowedSchemes) script_schemes ->
  match url_scheme v with
  | Some scheme => In scheme allowedSchemes
  | None => True
  end ->
  script_url v = false.
Proof.
  intros Hnone Hv. unfold script_url.
  destruct (url_scheme v) as [scheme|]; [|reflexivity].
  destruct (mem scheme script_schemes) eqn:E; [|reflexivity].
  apply mem_In in E. rewrite Forall_forall in Hnone.
  exfalso. exact (Hnone scheme E Hv).
Qed.

(** Under the README options, an element that honours both contracts
    carries no script. *)
Lemma element_script_free (d allowedSchemes : list string) (e : string * Attribs) :
  ~ In "script"%string d ->
  Forall (fun scheme => ~ In scheme allowedSchemes) script_schemes ->
  element_ok (readmeSanitizeOptions d) e ->
  url_values_ok allowedSchemes e ->
  script_free e.
Proof.
  intros Hd Hnone Hok Hurl.
  destruct (element_ok_readme d e Hd Hok) as [[Htag Hhandlers] _].
  split; [exact Htag|]. split; [exact Hhandlers|].
  intros k v Hcarrier Hk.
  destruct Hok as (t0 & a0 & _ & _ & Hnames & _).
  apply (allowed_scheme_is_no_script allowedSchemes); [exact Hnone|].
  apply (Hurl k v); [|exact Hk].
  apply readme_url_carriers_checked; [|exact Hcarrier].
  exact (readme_attr_allowed d (fst e) k (Hnames k v Hk)).
Qed.

(** The two ways [fetchUserReadmeHtml] completes, after its one request:
    with the empty fragment, or with what [sanitizeHtml] returned under
    the README options. *)
Lemma fetchUserReadmeHtml_cases (w : World) (username : string) (s : St) :
  exists html,
    fetchUserReadmeHtml w username s
    = (push (EvFetch (readmeMetaUrl username) (requestHeaders w)) s, Ok html) /\
    (html = [] \/
     exists rawHtml,
       sanitizeHtml w (readmeSanitizeOptions (sanitize_defaults_allowedTags w)) rawHtml
       = Ok html).
Proof.
  unfold fetchUserReadmeHtml, try_catch, bind, emit, lift, ret, throw.
  destruct (fetch_readme w (readmeMetaUrl username) (requestHeaders w))
    as [e|status [meta|e]]; cbn.
  - eauto.
  - destruct (ok status); cbn; [|eauto].
    destruct (truthy (content meta)); cbn; [|eauto].
    destruct (Buffer_from_base64 w (content meta)) as [markdown|e]; cbn; [|eauto].
    destruct (marked_parse w markdown) as [rawHtml|e]; cbn; [|eauto].
    destruct (sanitizeHtml w _ rawHtml) as [safeHtml|e] eqn:E; cbn; eauto 6.
  - destruct (ok status); cbn; eauto.
Qed.

(** C5.  [fetchUserReadmeHtml] always completes normally; on every
    failure of its path the fragment it returns is the empty one; and the
    builder completes normally whenever the profile and the repository
    calls succeed, whatever happens on the README path. *)
Theorem C5_readme_never_throws (w : World) (username : string) (s : St) :
  (exists s' html,
      fetchUserReadmeHtml w username s = (s', Ok html) /\
      (readme_failure w username -> html = [])) /\
  (forall st1 st2 userData reposData,
      fetch_user w (userUrl username) (requestHeaders w) = Resp st1 (Ok userData) ->
      ok st1 = true ->
      fetch_repos w (reposUrl username) (requestHeaders w) = Resp st2 (Ok reposData) ->
      ok st2 = true ->
      exists s' templateData,
        buildTemplateData w username s = (s', Ok templateData)).
Proof.
  split.
  - unfold readme_failure, fetchUserReadmeHtml, try_catch, bind, emit, lift, ret, throw.
    destruct (fetch_readme w (readmeMetaUrl username) (requestHeaders w))
      as [e|status [meta|e]]; cbn.
    + eauto.
    + destruct (ok status); cbn; [|eauto].
      destruct (truthy (content meta)); cbn; [|eauto].
      destruct (Buffer_from_base64 w (content meta)) as [markdown|e]; cbn; [|eauto].
      destruct (marked_parse w markdown) as [rawHtml|e]; cbn; [|eauto].
      destruct (sanitizeHtml w _ rawHtml) as [safeHtml|e]; cbn; [|eauto].
      do 2 eexists. split; [reflexivity|].
      intros [H|[H|[e H]]]; discriminate.
    + destruct (ok status); cbn; eauto.
  - intros st1 st2 userData reposData Hu Hok1 Hr Hok2.
    unfold buildTemplateData.
    rewrite bind_run, fetchGitHubData_run, Hu. cbn [fetchCompletion]. rewrite Hok1.
    rewrite bind_run, fetchGitHubData_run, Hr. cbn [fetchCompletion]. rewrite Hok2.
    rewrite bind_run.
    match goal with
    | |- context [fetchUserReadmeHtml w username ?s0] =>
        destruct (fetchUserReadmeHtml_cases w username s0) as (html & E & _)
    end.
    rewrite E. do 2 eexists. reflexivity.
Qed.

(** C1.  With a sanitizer that honours its contract, for names and for
    URLs, the fragment [fetchUserReadmeHtml] returns holds no executable
    script, whatever the markdown was: at any depth there is no [script]
    element, no event-handler attribute, and no [javascript:],
    [vbscript:] or [data:] URL in an attribute that carries a URL. *)
Theorem C1_readme_has_no_script (w : World) (defaults_allowedSchemes : list string)
    (username : string) (s : St) :
  sanitizer_trusted_urls w defaults_allowedSchemes ->
  exists s' html,
    fetchUserReadmeHtml w username s = (s', Ok html) /\
    Forall script_free (elements html).
Proof.
  intros ([Hc Hd] & Hu & Hnone).
  destruct (fetchUserReadmeHtml_cases w username s) as (html & E & [->|[raw Hs]]).
  - do 2 eexists. split; [exact E|constructor].
  - do 2 eexists. split; [exact E|].
    pose proof (Hc _ _ Hs) as Hnames. pose proof (Hu _ _ Hs) as Hurls.
    rewrite Forall_forall in Hnames, Hurls. apply Forall_forall. intros e He.
    exact (element_script_free _ _ e Hd Hnone (Hnames e He) (Hurls e He)).
Qed.

(** C9.  With a sanitizer that honours its contract, every link of the
    fragment [fetchUserReadmeHtml] returns has [target] equal to [_blank]
    and [rel] equal to [noopener noreferrer], whatever attributes the
    markdown gave it. *)
Theorem C9_links_open_in_new_context (w : World) (username : string) (s : St) :
  sanitizer_trusted w ->
  exists s' html,
    fetchUserReadmeHtml w username s = (s', Ok html) /\
    Forall link_policy (elements html).
Proof.
  intros [Hc Hd].
  destruct (fetchUserReadmeHtml_cases w username s) as (html & E & [->|[raw Hs]]).
  - do 2 eexists. split; [exact E|constructor].
  - do 2 eexists. split; [exact E|].
    eapply Forall_impl; [|exact (Hc _ _ Hs)].
    intros e He. now apply (element_ok_readme _ e Hd).
Qed.

(* ================================================================== *)
(** * The reference sanitizer honours the contract *)
(* ================================================================== *)

Lemma get_attr_filter (P : string -> bool) (k : string) (a : Attribs) :
  get_attr k (filter (fun kv => P (fst kv)) a)
  = if P k then get_attr k a else None.
Proof.
  induction a as [|[k' v'] rest IH]; cbn.
  - now destruct (P k).
  - destruct (P k') eqn:Ek'; cbn.
    + destruct (k' =? k)%string eqn:E; [|exact IH].
      apply String.eqb_eq in E. subst k'. now rewrite Ek'.
    + rewrite IH. destruct (k' =? k)%string eqn:E; [|reflexivity].
      apply String.eqb_eq in E. subst k'. now rewrite Ek'.
Qed.

Lemma elements_app (h1 h2 : Html) : elements (h1 ++ h2) = elements h1 ++ elements h2.
Proof. apply flat_map_app. Qed.

Lemma elements_flat_map (P : string * Attribs -> Prop) (f : node -> Html)
    (ch : list node) :
  Forall (fun c => Forall P (elements (f c))) ch ->
  Forall P (elements (flat_map f ch)).
Proof.
  induction 1 as [|c cs Hc _ IH]; cbn.
  - constructor.
  - rewrite elements_app. apply Forall_app. now split.
Qed.

Lemma sanitize_node_ok (o : SanitizeOptions) (n : node) :
  Forall (element_ok o) (elements (sanitize_node o n)).
Proof.
  induction n as [s|t0 a0 ch IH] using node_forall_ind.
  - constructor.
  - cbn [sanitize_node].
    pose proof (elements_flat_map _ _ _ IH) as Hinner.
    destruct (mem (fst (apply_transform o t0 a0)) (allowedTags o)) eqn:Eallowed.
    + unfold elements. cbn [flat_map elements_of]. rewrite app_nil_r.
      constructor; [|exact Hinner].
      exists t0, a0. cbn [fst snd]. unfold filter_attribs.
      repeat split.
      * now apply mem_In.
      * intros k v Hk. rewrite get_attr_filter in Hk.
        destruct (attr_allowed o _ k); [reflexivity|discriminate].
      * intros k v Hk Hallowed _ _ _. rewrite get_attr_filter. now rewrite Hallowed.
    + destruct (mem _ nonTextTags); [constructor|exact Hinner].
Qed.

Lemma sanitize_reference_contract (o : SanitizeOptions) :
  sanitize_contract sanitize_reference o.
Proof.
  intros h out H. injection H as <-.
  apply elements_flat_map, Forall_forall. intros n _. apply sanitize_node_ok.
Qed.

Lemma demo_world_trusted : sanitizer_trusted Demo.world.
Proof.
  split.
  - apply sanitize_reference_contract.
  - cbn. intros H. repeat (destruct H as [H|H]; [discriminate|]). contradiction.
Qed.

(** On the README of the concrete world the script element and the event
    handlers are gone and the link's own target is overridden. *)
Example demo_readme :
  snd (fetchUserReadmeHtml Demo.world "octocat" fresh)
  = Ok [ Element "h1" [] [Text "Hi there"];
         Element "p" []
           [ Element "a"
               [("href", "https://example.org"); ("target", "_blank");
                ("rel", "noopener noreferrer")]
               [Text "my site"];
             Element "img" [("src", "x.png")] [] ] ].
Proof. vm_compute. reflexivity. Qed.

Lemma get_attr_filter_passes (P : string * string -> bool) (k v : string)
    (a : Attribs) :
  get_attr k (filter P a) = Some v -> P (k, v) = true.
Proof.
  induction a as [|[k' v'] rest IH]; cbn; [discriminate|].
  destruct (P (k', v')) eqn:EP; [|exact IH]. cbn.
  destruct (k' =? k)%string eqn:E; [|exact IH].
  apply String.eqb_eq in E. subst k'. intros [= <-]. exact EP.
Qed.

Lemma get_attr_filter_keeps (P : string * string -> bool) (k v : string)
    (a : Attribs) :
  get_attr k a = Some v -> P (k, v) = true -> get_attr k (filter P a) = Some v.
Proof.
  intros Hk HP. induction a as [|[k' v'] rest IH]; cbn in *; [discriminate|].
  destruct (k' =? k)%string eqn:E.
  - apply String.eqb_eq in E. subst k'. injection Hk as ->.
    rewrite HP. cbn. now rewrite String.eqb_refl.
  - destruct (P (k', v')); cbn; [rewrite E|]; now apply IH.
Qed.

Lemma scheme_checked_value_filtered (k : string) :
  scheme_checked k = true -> value_filtered k = true.
Proof.
  intros H. apply mem_In in H. cbn in H.
  repeat (destruct H as [<-|H]; [reflexivity|]). contradiction.
Qed.

Lemma sanitize_node_checked_ok (allowedSchemes : list string)
    (o : SanitizeOptions) (n : node) :
  Forall (fun e => element_ok o e /\ url_values_ok allowedSchemes e)
    (elements (sanitize_node_checked allowedSchemes o n)).
Proof.
  induction n as [s|t0 a0 ch IH] using node_forall_ind.
  - constructor.
  - cbn [sanitize_node_checked].
    pose proof (elements_flat_map _ _ _ IH) as Hinner.
    destruct (mem (fst (apply_transform o t0 a0)) (allowedTags o)) eqn:Eallowed.
    + unfold elements. cbn [flat_map elements_of]. rewrite app_nil_r.
      constructor; [|exact Hinner]. split.
      * exists t0, a0. cbn [fst snd]. repeat split.
        -- now apply mem_In.
        -- intros k v Hk. apply get_attr_filter_passes in Hk.
           unfold keeps_attribute in Hk. cbn [fst snd] in Hk.
           rewrite !andb_true_iff in Hk. tauto.
        -- intros k v Hk Hallowed Hvalid Hfiltered Hne.
           apply get_attr_filter_keeps; [exact Hk|].
           unfold keeps_attribute. cbn [fst snd].
           rewrite Hvalid, Hallowed.
           apply String.eqb_neq in Hne. rewrite Hne.
           destruct (scheme_checked k) eqn:Ec; [|reflexivity].
           apply scheme_checked_value_filtered in Ec. congruence.
      * intros k v Hchecked Hk. cbn [snd] in Hk.
        apply get_attr_filter_passes in Hk.
        unfold keeps_attribute in Hk. cbn [fst snd] in Hk.
        rewrite !andb_true_iff in Hk. destruct Hk as [_ Hk].
        rewrite Hchecked in Hk. cbn [andb] in Hk.
        apply negb_true_iff in Hk. unfold naughtyHref in Hk.
        apply orb_false_iff in Hk as [_ Hk].
        unfold naughty_scheme in Hk. unfold url_scheme.
        destruct (scheme_of (strip_controls v)) as [scheme|]; [|exact I].
        apply negb_false_iff in Hk. now apply mem_In.
    + destruct (mem _ nonTextTags); [constructor|exact Hinner].
Qed.

Lemma hostile_world_trusted :
  sanitizer_trusted_urls Cases.hostile reference_allowedSchemes.
Proof.
  assert (Hboth : forall o h,
             Forall (fun e => element_ok o e /\ url_values_ok reference_allowedSchemes e)
               (elements (flat_map (sanitize_node_checked reference_allowedSchemes o) h))).
  { intros o h. apply elements_flat_map, Forall_forall. intros n _.
    apply sanitize_node_checked_ok. }
  split; [split|split].
  - intros h out H. injection H as <-.
    eapply Forall_impl; [|apply Hboth]. intros e He. apply He.
  - cbn. intros H. repeat (destruct H as [H|H]; [discriminate|]). contradiction.
  - intros h out H. injection H as <-.
    eapply Forall_impl; [|apply Hboth]. intros e He. apply He.
  - repeat constructor; cbn; intros H;
      repeat (destruct H as [H|H]; [discriminate|]); contradiction.
Qed.

(** On the hostile README the three script URLs and the script element
    are gone, the empty [alt] and the ordinary link stay. *)
Example hostile_readme :
  snd (fetchUserReadmeHtml Cases.hostile "octocat" fresh)
  = Ok [ Element "p" []
           [ Element "a" [("rel", "noopener noreferrer"); ("target", "_blank")]
               [Text "click"];
             Element "a" [("rel", "noopener noreferrer"); ("target", "_blank")]
               [Text "here"];
             Element "img" [("alt", "")] [];
             Element "a"
               [("href", "https://example.org/"); ("rel", "noopener noreferrer");
                ("target", "_blank")]
               [Text "my site"] ] ].
Proof. vm_compute. reflexivity. Qed.

(** The clause on URLs is needed: a filter of names alone lets the
    [javascript:] image source of the hostile README through, and
    [script_free] tells. *)
Example names_alone_are_not_enough :
  exists out e,
    sanitize_reference (readmeSanitizeOptions Demo.defaults_allowedTags)
      Cases.hostileReadme = Ok out /\
    In e (elements out) /\ ~ script_free e.
Proof.
  eexists. exists ("img"%string,
                   [("src", "javascript:alert(3)"); ("alt", "")]%string).
  split; [reflexivity|]. split.
  - vm_compute. do 3 right. now left.
  - intros (_ & _ & Hurl).
    specialize (Hurl "src"%string "javascript:alert(3)"%string eq_refl eq_refl).
    discriminate Hurl.
Qed.

(** C1 at the world with the hostile README. *)
Lemma C1_witness :
  sanitizer_trusted_urls Cases.hostile reference_allowedSchemes /\
  exists s' html,
    fetchUserReadmeHtml Cases.hostile "octocat" fresh = (s', Ok html) /\
    Forall script_free (elements html).
Proof.
  split.
  - exact hostile_world_trusted.
  - exact (C1_readme_has_no_script Cases.hostile reference_allowedSchemes
             "octocat" fresh hostile_world_trusted).
Defined.

(** C9 at the concrete world. *)
Lemma C9_witness :
  sanitizer_trusted Demo.world /\
  exists s' html,
    fetchUserReadmeHtml Demo.world "octocat" fresh = (s', Ok html) /\
    Forall link_policy (elements html).
Proof.
  split.
  - exact demo_world_trusted.
  - exact (C9_links_open_in_new_context Demo.world "octocat" fresh demo_world_trusted).
Defined.

(* ================================================================== *)
(** * The builder's upstream calls *)
(* ================================================================== *)

(** [buildTemplateData], run: two guarded requests, then the README
    request, which cannot fail. *)
Lemma buildTemplateData_run (w : World) (username : string) (s : St) :
  exists html,
    buildTemplateData w username s
    = let h := requestHeaders w in
      let s1 := push (EvFetch (userUrl username) h) s in
      match fetchCompletion (fetch_user w (userUrl username) h) with
      | Throw e => (s1, Throw e)
      | Ok userData =>
          let s2 := push (EvFetch (reposUrl username) h) s1 in
          match fetchCompletion (fetch_repos w (reposUrl username) h) with
          | Throw e => (s2, Throw e)
          | Ok reposData =>
              (push (EvFetch (readmeMetaUrl username) h) s2,
               Ok {| user := userView (toLocaleDateString w) userData;
                     repos := topRepos reposData;
                     readmeHtml := html;
                     generatedAt := today w |})
          end
      end.
Proof.
  destruct (fetchUserReadmeHtml_cases w username
              (push (EvFetch (reposUrl username) (requestHeaders w))
                 (push (EvFetch (userUrl username) (requestHeaders w)) s)))
    as (html & E & _).
  exists html. unfold buildTemplateData. cbv zeta.
  rewrite bind_run, fetchGitHubData_run.
  destruct (fetchCompletion (fetch_user w _ _)) as [userData|e]; [|reflexivity].
  rewrite bind_run, fetchGitHubData_run.
  destruct (fetchCompletion (fetch_repos w _ _)) as [reposData|e]; [|reflexivity].
  rewrite bind_run, E. reflexivity.
Qed.

Lemma buildTemplateData_absent (w : World) (username : string) (s : St) :
  reported_absent w username ->
  exists s',
    buildTemplateData w username s = (s', Throw (mkError "User not found")) /\
    res s' = res s.
Proof.
  intros Habs. destruct (buildTemplateData_run w username s) as [html ->]. cbv zeta.
  destruct Habs as [[json Hu]|(status & userData & json & Hu & Hok & Hr)].
  - rewrite Hu. cbn. eauto.
  - rewrite Hu. cbn [fetchCompletion]. rewrite Hok, Hr. cbn. eauto.
Qed.

Lemma string_app_assoc (a b c : string) :
  ((a ++ b) ++ c = a ++ (b ++ c))%string.
Proof. induction a as [|x a IH]; cbn [String.append]; [reflexivity|now rewrite IH]. Qed.

Lemma contains_quoted (pre u post : string) :
  contains u (pre ++ dquote ++ u ++ dquote ++ post)%string.
Proof.
  exists (pre ++ dquote)%string, (dquote ++ post)%string.
  now rewrite string_app_assoc.
Qed.

(** Both handlers turn every falsy [username] away, the empty string
    included, before anything is called. *)
Lemma falsy_username_is_400 (w : World) (username : jsval) :
  truthy username = false ->
  preview w username fresh = pdf w username fresh /\
  statusCode (res (fst (pdf w username fresh))) = 400 /\
  trace (fst (pdf w username fresh)) = [].
Proof.
  intros H. unfold preview, pdf. rewrite H. repeat split.
Qed.

(** C6.  A request to [/preview] or [/pdf] whose query has no [username]
    is answered 400 with the fixed message, and the handler makes no call
    at all: the trace of external calls stays empty, so nothing is fetched
    upstream. *)
Theorem C6_missing_username_is_400 (w : World) :
  (statusCode (res (fst (preview w JUndefined fresh))) = 400 /\
   body (res (fst (preview w JUndefined fresh)))
     = Some (BText "Username parameter is required") /\
   trace (fst (preview w JUndefined fresh)) = [] /\
   fetched (trace (fst (preview w JUndefined fresh))) = []) /\
  (statusCode (res (fst (pdf w JUndefined fresh))) = 400 /\
   body (res (fst (pdf w JUndefined fresh)))
     = Some (BText "Username parameter is required") /\
   trace (fst (pdf w JUndefined fresh)) = [] /\
   fetched (trace (fst (pdf w JUndefined fresh))) = []).
Proof. repeat split. Qed.

(** C7.  When the upstream reports the requested account as absent, both
    [/preview] and [/pdf] answer 404 with a text that contains the
    username. *)
Theorem C7_absent_user_is_404 (w : World) (username : jsval) :
  truthy username = true ->
  reported_absent w (js_toString username) ->
  (statusCode (res (fst (preview w username fresh))) = 404 /\
   exists text,
     body (res (fst (preview w username fresh))) = Some (BText text) /\
     contains (js_toString username) text) /\
  (statusCode (res (fst (pdf w username fresh))) = 404 /\
   exists text,
     body (res (fst (pdf w username fresh))) = Some (BText text) /\
     contains (js_toString username) text).
Proof.
  intros Htruthy Habs.
  pose (text := ("GitHub user " ++ dquote ++ js_toString username
                   ++ dquote ++ " not found")%string).
  assert (Hpreview : exists s', preview w username fresh = (s', Ok tt) /\
                       statusCode (res s') = 404 /\
                       body (res s') = Some (BText text)).
  { unfold preview. rewrite Htruthy. cbn [negb]. unfold try_catch.
    rewrite bind_run.
    destruct (buildTemplateData_absent w (js_toString username) fresh Habs)
      as (s' & -> & Hres).
    cbn [message String.eqb Ascii.eqb Bool.eqb].
    unfold bind, res_status, res_send. cbn. rewrite Hres. cbn.
    eexists. repeat split. }
  assert (Hpdf : exists s', pdf w username fresh = (s', Ok tt) /\
                   statusCode (res s') = 404 /\
                   body (res s') = Some (BText text)).
  { unfold pdf. rewrite Htruthy. cbn [negb]. unfold try_catch.
    rewrite bind_run. unfold console_log at 1, emit at 1. cbv beta iota.
    rewrite bind_run.
    destruct (buildTemplateData_absent w (js_toString username)
                (push (EvLog ("Fetching data for GitHub user: " ++ js_toString username)) fresh)
                Habs)
      as (s' & -> & Hres).
    cbn [message String.eqb Ascii.eqb Bool.eqb].
    unfold bind, console_log, emit, res_status, res_send. cbn. rewrite Hres. cbn.
    eexists. repeat split. }
  destruct Hpreview as (s1 & -> & Hs1 & Hb1).
  destruct Hpdf as (s2 & -> & Hs2 & Hb2).
  cbn [fst]. repeat split; trivial.
  - exists text. split; [exact Hb1|apply contains_quoted].
  - exists text. split; [exact Hb2|apply contains_quoted].
Qed.

(** C7 at the concrete world, for an account it does not have. *)
Lemma C7_witness :
  truthy (JStr "ghost") = true /\
  reported_absent Demo.world "ghost" /\
  (statusCode (res (fst (preview Demo.world (JStr "ghost") fresh))) = 404 /\
   exists text,
     body (res (fst (preview Demo.world (JStr "ghost") fresh))) = Some (BText text) /\
     contains "ghost" text) /\
  (statusCode (res (fst (pdf Demo.world (JStr "ghost") fresh))) = 404 /\
   exists text,
     body (res (fst (pdf Demo.world (JStr "ghost") fresh))) = Some (BText text) /\
     contains "ghost" text).
Proof.
  assert (Habs : reported_absent Demo.world "ghost").
  { left. eexists. vm_compute. reflexivity. }
  split; [reflexivity|]. split; [exact Habs|].
  exact (C7_absent_user_is_404 Demo.world (JStr "ghost") eq_refl Habs).
Defined.

Lemma string_length_app (a b : string) :
  String.length (a ++ b) = (String.length a + String.length b)%nat.
Proof. induction a as [|x a IH]; cbn; [reflexivity|now rewrite IH]. Qed.

Lemma string_app_inv_head (p a b : string) : (p ++ a = p ++ b)%string -> a = b.
Proof.
  induction p as [|x p IH]; cbn; intros H; [exact H|].
  injection H as H. now apply IH.
Qed.

Lemma userUrl_not_reposUrl (username : string) : userUrl username <> reposUrl username.
Proof.
  unfold userUrl, reposUrl. intros H.
  apply string_app_inv_head in H.
  apply (f_equal String.length) in H.
  rewrite string_length_app in H. cbn in H. lia.
Qed.

Lemma readmeMetaUrl_not_reposUrl (username : string) :
  readmeMetaUrl username <> reposUrl username.
Proof. unfold readmeMetaUrl, reposUrl. intros H. cbn in H. discriminate H. Qed.

Lemma fetchCompletion_Ok {A : Type} (o : FetchOutcome A) (a : A) :
  fetchCompletion o = Ok a -> exists status, o = Resp status (Ok a) /\ ok status = true.
Proof.
  destruct o as [e|status json]; cbn; [discriminate|].
  destruct (ok status) eqn:E.
  - intros ->. eauto.
  - destruct (status =? 404)%Z; discriminate.
Qed.

Lemma topRepos_from_input (reposData : list Repo.t) (v : ViewRepo.t) :
  In v (topRepos reposData) -> exists r, In r reposData /\ v = repoView r.
Proof.
  unfold topRepos, slice0. intros H.
  apply in_map_iff in H as (r & <- & Hr). exists r. split; [|reflexivity].
  apply (Permutation_in _ (js_sort_perm byStars reposData)).
  rewrite <- (firstn_skipn 10 (js_sort byStars reposData)).
  apply in_or_app. now left.
Qed.

(** C10.  In every run of the builder the repositories URL, which asks
    for pages of 100, is requested at most once; in a run that completes
    it is requested exactly once, between the profile and the README
    requests, and the [repos] array is the top ten of the body of that one
    response and of nothing else: when the upstream answers with the first
    100 entries of an account's repositories, the array is the top ten of
    those 100. *)
Theorem C10_one_capped_repos_request
    (w : World) (username : string) (s' : St) (r : Result TemplateData) :
  buildTemplateData w username fresh = (s', r) ->
  (count_occ string_dec (fetched (trace s')) (reposUrl username) <= 1)%nat /\
  reposUrl username = (userUrl username ++ "/repos?per_page=100&sort=stars")%string /\
  forall templateData, r = Ok templateData ->
    fetched (trace s')
      = [userUrl username; reposUrl username; readmeMetaUrl username] /\
    count_occ string_dec (fetched (trace s')) (reposUrl username) = 1%nat /\
    exists status reposData,
      fetch_repos w (reposUrl username) (requestHeaders w)
        = Resp status (Ok reposData) /\
      repos templateData = topRepos reposData /\
      (forall v, In v (repos templateData) ->
                 exists r, In r reposData /\ v = repoView r) /\
      (forall allRepos, reposData = firstn 100 allRepos ->
         (List.length reposData <= 100)%nat /\
         repos templateData = topRepos (firstn 100 allRepos)).
Proof.
  intros Hrun.
  destruct (buildTemplateData_run w username fresh) as [html E].
  rewrite E in Hrun. cbv zeta in Hrun. clear E.
  pose proof (userUrl_not_reposUrl username) as Hu.
  pose proof (readmeMetaUrl_not_reposUrl username) as Hm.
  assert (Hurl : reposUrl username
                 = (userUrl username ++ "/repos?per_page=100&sort=stars")%string).
  { unfold reposUrl, userUrl. now rewrite string_app_assoc. }
  destruct (fetchCompletion (fetch_user w _ _)) as [userData|e].
  - destruct (fetchCompletion (fetch_repos w _ _)) as [reposData|e] eqn:Er.
    + injection Hrun as <- <-. cbn [trace push fresh fetched flat_map app count_occ].
      destruct (string_dec (userUrl username) (reposUrl username)); [contradiction|].
      destruct (string_dec (readmeMetaUrl username) (reposUrl username)); [contradiction|].
      destruct (string_dec (reposUrl username) (reposUrl username)); [|contradiction].
      split; [lia|]. split; [exact Hurl|].
      intros templateData Htd. injection Htd as <-.
      split; [reflexivity|]. split; [reflexivity|].
      apply fetchCompletion_Ok in Er as (status & Hresp & _).
      exists status, reposData. cbn [repos].
      split; [exact Hresp|]. split; [reflexivity|].
      split; [apply topRepos_from_input|].
      intros allRepos ->. split; [|reflexivity].
      rewrite length_firstn. lia.
    + injection Hrun as <- <-. cbn [trace push fresh fetched flat_map app count_occ].
      destruct (string_dec (userUrl username) (reposUrl username)); [contradiction|].
      destruct (string_dec (reposUrl username) (reposUrl username)); [|contradiction].
      split; [lia|]. split; [exact Hurl|]. discriminate.
  - injection Hrun as <- <-. cbn [trace push fresh fetched flat_map app count_occ].
    destruct (string_dec (userUrl username) (reposUrl username)); [contradiction|].
    split; [lia|]. split; [exact Hurl|]. discriminate.
Qed.

(** C10 at the concrete world, on a run that completes. *)
Lemma C10_witness :
  exists s' templateData,
    buildTemplateData Demo.world "octocat" fresh = (s', Ok templateData) /\
    (count_occ string_dec (fetched (trace s')) (reposUrl "octocat") <= 1)%nat /\
    reposUrl "octocat" = (userUrl "octocat" ++ "/repos?per_page=100&sort=stars")%string /\
    forall templateData0, Ok templateData = Ok templateData0 ->
      fetched (trace s')
        = [userUrl "octocat"; reposUrl "octocat"; readmeMetaUrl "octocat"] /\
      count_occ string_dec (fetched (trace s')) (reposUrl "octocat") = 1%nat /\
      exists status reposData,
        fetch_repos Demo.world (reposUrl "octocat") (requestHeaders Demo.world)
          = Resp status (Ok reposData) /\
        repos templateData0 = topRepos reposData /\
        (forall v, In v (repos templateData0) ->
                   exists r, In r reposData /\ v = repoView r) /\
        (forall allRepos, reposData = firstn 100 allRepos ->
           (List.length reposData <= 100)%nat /\
           repos templateData0 = topRepos (firstn 100 allRepos)).
Proof.
  assert (Hrun : { out : St * TemplateData |
                   buildTemplateData Demo.world "octocat" fresh
                   = (fst out, Ok (snd out)) }).
  { eexists (_, _). vm_compute. reflexivity. }
  destruct Hrun as [[s' templateData] Hrun]. cbn [fst snd] in Hrun.
  exists s', templateData. split; [exact Hrun|].
  exact (C10_one_capped_repos_request Demo.world "octocat" s' (Ok templateData) Hrun).
Defined.

(** What the cap means: of an account with 101 repositories whose last
    one has the most stars, the first page of 100 does not have that one,
    and neither has the top ten. *)
Example capped_page_misses_later_repo :
  let allRepos :=
    map (fun i => Demo.repo "r" (Z.of_nat i)) (seq 0 100) ++ [Demo.repo "latest" 999] in
  existsb (fun v => (ViewRepo.name v =? "latest")%string) (topRepos allRepos) = true /\
  existsb (fun v => (ViewRepo.name v =? "latest")%string)
    (topRepos (firstn 100 allRepos)) = false.
Proof. vm_compute. split; reflexivity. Qed.

(* ================================================================== *)
(** * What a computation adds to the trace *)
(* ================================================================== *)

Lemma only_nil (Q : Event -> bool) : only Q [].
Proof. constructor. Qed.

Lemma only_app (Q : Event -> bool) (e1 e2 : list Event) :
  only Q e1 -> only Q e2 -> only Q (e1 ++ e2).
Proof. intros H1 H2. apply Forall_app. now split. Qed.

Lemma only_one (Q : Event -> bool) (e : Event) : Q e = true -> only Q [e].
Proof. intros H. now repeat constructor. Qed.

Create HintDb trace.
#[local] Hint Resolve only_nil only_app only_one : trace.

Section Emits.
Context {A B : Type}.

Lemma emits_pure (P : list Event -> Prop) (m : M A) :
  P [] -> (forall s, trace (fst (m s)) = trace s) -> emits P m.
Proof. intros HP Hm s. exists []. now rewrite Hm, app_nil_r. Qed.

Lemma emits_bind (P1 P2 P : list Event -> Prop) (m : M A) (f : A -> M B) :
  (forall e1 e2, P1 e1 -> P2 e2 -> P (e1 ++ e2)) ->
  (forall e1, P1 e1 -> P e1) ->
  emits P1 m -> (forall a, emits P2 (f a)) -> emits P (bind m f).
Proof.
  intros Hjoin Hstop Hm Hf s. unfold bind.
  destruct (Hm s) as (e1 & E1 & H1).
  destruct (m s) as [s1 [a|e]]; cbn [fst] in *.
  - destruct (Hf a s1) as (e2 & E2 & H2).
    exists (e1 ++ e2). rewrite E2, E1, app_assoc. auto.
  - exists e1. auto.
Qed.

Lemma emits_try_catch (P1 P2 P : list Event -> Prop)
    (m : M A) (handler : Error -> M A) :
  (forall e1 e2, P1 e1 -> P2 e2 -> P (e1 ++ e2)) ->
  (forall e1, P1 e1 -> P e1) ->
  emits P1 m -> (forall e, emits P2 (handler e)) -> emits P (try_catch m handler).
Proof.
  intros Hjoin Hstop Hm Hh s. unfold try_catch.
  destruct (Hm s) as (e1 & E1 & H1).
  destruct (m s) as [s1 [a|e]]; cbn [fst] in *.
  - exists e1. auto.
  - destruct (Hh e s1) as (e2 & E2 & H2).
    exists (e1 ++ e2). rewrite E2, E1, app_assoc. auto.
Qed.
End Emits.

Lemma quiet_bind {A B : Type} (Q : Event -> bool) (m : M A) (f : A -> M B) :
  emits (only Q) m -> (forall a, emits (only Q) (f a)) -> emits (only Q) (bind m f).
Proof. apply emits_bind; auto with trace. Qed.

Lemma quiet_emit (Q : Event -> bool) (e : Event) : Q e = true -> emits (only Q) (emit e).
Proof. intros H s. exists [e]. split; [reflexivity|auto with trace]. Qed.

Lemma quiet_lift {A : Type} (Q : Event -> bool) (r : Result A) : emits (only Q) (lift r).
Proof. apply emits_pure; auto with trace. Qed.

Lemma quiet_res_status (Q : Event -> bool) (code : Z) : emits (only Q) (res_status code).
Proof. apply emits_pure; auto with trace. Qed.

Lemma quiet_res_send (Q : Event -> bool) (text : string) : emits (only Q) (res_send text).
Proof.
  intros s. exists []. split; [|auto with trace].
  unfold res_send. destruct (headersSent (res s)); cbn; now rewrite app_nil_r.
Qed.

Lemma quiet_res_setHeader (Q : Event -> bool) (w : World) (name value : string) :
  emits (only Q) (res_setHeader w name value).
Proof.
  intros s. exists []. split; [|auto with trace].
  unfold res_setHeader.
  destruct (headersSent (res s)); [|destruct (header_valid w name value)];
    cbn; now rewrite app_nil_r.
Qed.

Lemma quiet_res_end (Q : Event -> bool) (buffer : list Byte.byte) :
  emits (only Q) (res_end buffer).
Proof.
  intros s. exists []. split; [|auto with trace].
  unfold res_end. destruct (headersSent (res s)); cbn; now rewrite app_nil_r.
Qed.

#[local] Hint Resolve quiet_emit quiet_lift quiet_res_status quiet_res_send
  quiet_res_setHeader quiet_res_end : trace.

Ltac quiet :=
  repeat first
    [ apply quiet_bind; [|intros ?]
    | solve [auto with trace]
    | apply quiet_emit; reflexivity ].

Lemma buildTemplateData_no_browser (w : World) (username : string) :
  emits no_browser_op (buildTemplateData w username).
Proof.
  intros s. destruct (buildTemplateData_run w username s) as [html ->]. cbv zeta.
  destruct (fetchCompletion (fetch_user w _ _));
    [destruct (fetchCompletion (fetch_repos w _ _))|];
    cbn [fst trace push]; rewrite <- ?app_assoc; eexists; (split; [reflexivity|]);
    repeat constructor.
Qed.

Lemma exportPdf_no_lifecycle (w : World) (username : jsval) (html : string) :
  emits no_lifecycle (exportPdf w username html).
Proof. unfold exportPdf, console_log, no_lifecycle. quiet. Qed.

Lemma released_prepend (e1 e2 : list Event) :
  no_browser_op e1 -> browser_released e2 -> browser_released (e1 ++ e2).
Proof.
  intros H1 [H2|(pre & mid & post & -> & Hpre & Hmid & Hpost)].
  - left. now apply only_app.
  - right. exists (e1 ++ pre), mid, post. rewrite <- app_assoc.
    repeat split; trivial. now apply only_app.
Qed.

Lemma released_append (e1 e2 : list Event) :
  browser_released e1 -> no_browser_op e2 -> browser_released (e1 ++ e2).
Proof.
  intros [H1|(pre & mid & post & -> & Hpre & Hmid & Hpost)] H2.
  - left. now apply only_app.
  - right. exists pre, mid, (post ++ e2).
    repeat split; trivial; [|now apply only_app].
    rewrite <- app_assoc. cbn. rewrite <- app_assoc. reflexivity.
Qed.

Lemma released_bind {A B : Type} (m : M A) (f : A -> M B) :
  emits no_browser_op m -> (forall a, emits browser_released (f a)) ->
  emits browser_released (bind m f).
Proof.
  apply emits_bind.
  - apply released_prepend.
  - intros e1 H. now left.
Qed.

(** The launched browser: whatever the export does, and however it
    completes, [browser.close()] is the next lifecycle call. *)
Lemma launched_then_closed (w : World) (username : jsval) (html : string) :
  emits browser_released
    (emit EvLaunched ;;;
     try_finally (exportPdf w username html)
       (emit EvClose ;;; lift (browser_close w))).
Proof.
  intros s. unfold bind at 1, emit at 1, try_finally.
  destruct (exportPdf_no_lifecycle w username html (push EvLaunched s))
    as (mid & Emid & Hmid).
  destruct (exportPdf w username html (push EvLaunched s)) as [s1 r].
  cbn [fst] in Emid. unfold bind, emit, lift.
  exists (EvLaunched :: mid ++ [EvClose]). split.
  - destruct (browser_close w); cbn [fst trace push]; rewrite Emid; cbn [trace push];
      rewrite <- !app_assoc; reflexivity.
  - right. exists [], mid, []. repeat split; trivial; constructor.
Qed.

Lemma pdf_error_handler_no_browser (username : jsval) (error : Error) :
  emits no_browser_op
    (console_log "Error generating PDF:" ;;;
     if (message error =? "User not found")%string then
       res_status 404 ;;;
       res_send ("GitHub user " ++ dquote ++ js_toString username
                   ++ dquote ++ " not found")%string
     else
       res_status 500 ;;;
       res_send ("Error generating PDF: " ++ message error)%string).
Proof.
  unfold console_log, no_browser_op.
  destruct (message error =? "User not found")%string; quiet.
Qed.

Lemma pdf_emits_released (w : World) (username : jsval) :
  emits browser_released (pdf w username).
Proof.
  unfold pdf. destruct (truthy username); cbn [negb].
  - eapply emits_try_catch;
      [apply released_append | intros e H; exact H | | apply pdf_error_handler_no_browser].
    unfold console_log.
    apply released_bind; [unfold no_browser_op; quiet|intros _].
    apply released_bind; [apply buildTemplateData_no_browser|intros templateData].
    apply released_bind; [unfold no_browser_op; quiet|intros _].
    apply released_bind; [unfold no_browser_op; quiet|intros html].
    apply released_bind; [unfold no_browser_op; quiet|intros _].
    apply released_bind; [unfold no_browser_op; quiet|intros _].
    apply released_bind; [unfold no_browser_op; quiet|intros _].
    apply released_bind; [unfold no_browser_op; quiet|intros _].
    apply released_bind; [unfold no_browser_op; quiet|intros _].
    apply launched_then_closed.
  - intros s. destruct (quiet_bind (fun e => negb (is_browser_op e))
                          (res_status 400)
                          (fun _ => res_send "Username parameter is required")
                          (quiet_res_status _ _) (fun _ => quiet_res_send _ _) s)
      as (ext & E & H).
    exists ext. split; [exact E|now left].
Qed.

Lemma released_launch_closes (t : list Event) :
  browser_released t -> In EvLaunched t -> In EvClose t.
Proof.
  intros [H|(pre & mid & post & -> & _)] Hin.
  - unfold no_browser_op, only in H. rewrite Forall_forall in H.
    apply H in Hin. discriminate.
  - apply in_or_app. right. right. apply in_or_app. right. now left.
Qed.

(** C2.  In every run of the [/pdf] handler, whatever the collaborators
    do, the browser is either never launched or launched once and closed
    once afterwards, with every page operation in between and no browser
    operation after the close; so a launched browser is closed, on the
    path that sends the PDF and on every path on which a step after the
    launch throws. *)
Theorem C2_browser_closed_on_every_path (w : World) (username : jsval) :
  browser_released (trace (fst (pdf w username fresh))) /\
  (In EvLaunched (trace (fst (pdf w username fresh))) ->
   In EvClose (trace (fst (pdf w username fresh)))).
Proof.
  assert (H : browser_released (trace (fst (pdf w username fresh)))).
  { destruct (pdf_emits_released w username fresh) as (ext & -> & H). exact H. }
  split; [exact H|now apply released_launch_closes].
Qed.

(** The two exits of the export stage on concrete runs: the PDF is sent,
    and the rasterization fails; the last browser event is the close in
    both. *)
Example demo_pdf_success :
  statusCode (res (fst (pdf Demo.world (JStr "octocat") fresh))) = 200 /\
  filter is_browser_op (trace (fst (pdf Demo.world (JStr "octocat") fresh)))
  = [EvLaunched; EvNewPage; EvSetContent "<html></html>";
     EvEmulateMediaType "screen"; EvPdf; EvClose].
Proof. vm_compute. split; reflexivity. Qed.

Example demo_pdf_failure :
  statusCode (res (fst (pdf Demo.brokenPdf (JStr "octocat") fresh))) = 500 /\
  filter is_browser_op (trace (fst (pdf Demo.brokenPdf (JStr "octocat") fresh)))
  = [EvLaunched; EvNewPage; EvSetContent "<html></html>";
     EvEmulateMediaType "screen"; EvPdf; EvClose].
Proof. vm_compute. split; reflexivity. Qed.

(* ================================================================== *)
(** * More on the view-model builder *)
(* ================================================================== *)

Lemma StronglySorted_app_order {A : Type} (R : A -> A -> Prop) (l1 l2 : list A) :
  StronglySorted R (l1 ++ l2) -> forall a b, In a l1 -> In b l2 -> R a b.
Proof.
  induction l1 as [|x xs IH]; cbn; intros Hs a b Ha Hb; [contradiction|].
  inversion Hs as [|? ? Hrest Hall]; subst.
  destruct Ha as [->|Ha].
  - rewrite Forall_forall in Hall. apply Hall, in_or_app. now right.
  - now apply IH.
Qed.

(** X1.  The ten entries of the [repos] array really are the top ten:
    every repository of the API's list either is in the array or has at
    most as many stars as each entry of the array. *)
Theorem top_repos_are_the_highest (reposData : list Repo.t) (r : Repo.t) :
  In r reposData ->
  In (repoView r) (topRepos reposData) \/
  forall v, In v (topRepos reposData) ->
            (ViewRepo.stars v >= Repo.stargazers_count r)%Z.
Proof.
  intros Hin. unfold topRepos, slice0.
  apply (Permutation_in _ (Permutation_sym (js_sort_perm byStars reposData))) in Hin.
  rewrite <- (firstn_skipn 10 (js_sort byStars reposData)) in Hin.
  apply in_app_or in Hin as [Hin|Hin].
  - left. now apply in_map.
  - right. intros v Hv. apply in_map_iff in Hv as (a & <- & Ha). cbn.
    pose proof (js_sort_sorted reposData) as Hs.
    rewrite <- (firstn_skipn 10 (js_sort byStars reposData)) in Hs.
    exact (StronglySorted_app_order desc _ _ Hs a r Ha Hin).
Qed.

(** X1 on the repositories of the concrete world, for one that is left
    out. *)
Lemma top_repos_are_the_highest_witness :
  In (Demo.repo "k" 0) Demo.reposData /\
  (In (repoView (Demo.repo "k" 0)) (topRepos Demo.reposData) \/
   forall v, In v (topRepos Demo.reposData) ->
             (ViewRepo.stars v >= Repo.stargazers_count (Demo.repo "k" 0))%Z).
Proof.
  assert (Hin : In (Demo.repo "k" 0) Demo.reposData).
  { cbn. do 10 right. now left. }
  split; [exact Hin|].
  exact (top_repos_are_the_highest Demo.reposData (Demo.repo "k" 0) Hin).
Defined.

Lemma filter_hasStars_short (k : Z) (l : list Repo.t) :
  NoDup (map Repo.stargazers_count l) ->
  (List.length (filter (hasStars k) l) <= 1)%nat.
Proof.
  induction l as [|x xs IH]; cbn; intros Hnd; [lia|].
  inversion Hnd as [|? ? Hx Hxs]; subst.
  destruct (hasStars k x) eqn:E; [|now apply IH].
  cbn. destruct (filter (hasStars k) xs) as [|y ys] eqn:F; [cbn; lia|].
  exfalso. apply Hx.
  assert (Hy : In y (filter (hasStars k) xs)) by (rewrite F; now left).
  apply filter_In in Hy as [Hy Hk].
  unfold hasStars in E, Hk. apply Z.eqb_eq in E, Hk.
  apply in_map_iff. exists y. split; [lia|exact Hy].
Qed.

Lemma Permutation_filter_hasStars (k : Z) (l l' : list Repo.t) :
  Permutation l l' -> Permutation (filter (hasStars k) l) (filter (hasStars k) l').
Proof.
  induction 1 as [|x l l' _ IH|x y l|l l' l'' _ IH1 _ IH2]; cbn.
  - constructor.
  - destruct (hasStars k x); [now constructor|exact IH].
  - destruct (hasStars k x), (hasStars k y); try apply Permutation_refl.
    apply perm_swap.
  - eapply Permutation_trans; eauto.
Qed.

Lemma js_sort_order_independent (l l' : list Repo.t) :
  Permutation l l' ->
  NoDup (map Repo.stargazers_count l) ->
  js_sort byStars l' = js_sort byStars l.
Proof.
  intros Hp Hnd. apply js_sort_unique; [apply js_sort_sorted|].
  intros k. rewrite js_sort_stable.
  pose proof (Permutation_filter_hasStars k l l' Hp) as Hf.
  pose proof (filter_hasStars_short k l Hnd) as Hlen.
  destruct (filter (hasStars k) l) as [|a [|b t]] eqn:E.
  - now apply Permutation_nil.
  - now apply Permutation_length_1_inv.
  - cbn in Hlen. lia.
Qed.

(** X2.  When no two repositories have the same star count, the [repos]
    array does not depend on the order in which the API lists them. *)
Theorem top_repos_order_independent (reposData reordered : list Repo.t) :
  Permutation reposData reordered ->
  NoDup (map Repo.stargazers_count reposData) ->
  topRepos reordered = topRepos reposData.
Proof.
  intros Hp Hnd. unfold topRepos. now rewrite (js_sort_order_independent _ _ Hp Hnd).
Qed.

(** X2 on three repositories, listed in two orders. *)
Lemma top_repos_order_independent_witness :
  Permutation [Demo.repo "a" 3; Demo.repo "b" 7; Demo.repo "c" 5]
              [Demo.repo "c" 5; Demo.repo "a" 3; Demo.repo "b" 7] /\
  NoDup (map Repo.stargazers_count
           [Demo.repo "a" 3; Demo.repo "b" 7; Demo.repo "c" 5]) /\
  topRepos [Demo.repo "c" 5; Demo.repo "a" 3; Demo.repo "b" 7]
  = topRepos [Demo.repo "a" 3; Demo.repo "b" 7; Demo.repo "c" 5].
Proof.
  assert (Hp : Permutation [Demo.repo "a" 3; Demo.repo "b" 7; Demo.repo "c" 5]
                           [Demo.repo "c" 5; Demo.repo "a" 3; Demo.repo "b" 7]).
  { apply Permutation_sym.
    apply (Permutation_cons_app [Demo.repo "a" 3; Demo.repo "b" 7] []).
    rewrite app_nil_r. apply Permutation_refl. }
  assert (Hnd : NoDup (map Repo.stargazers_count
                         [Demo.repo "a" 3; Demo.repo "b" 7; Demo.repo "c" 5])).
  { cbn. repeat constructor; cbn; intuition discriminate. }
  split; [exact Hp|]. split; [exact Hnd|].
  exact (top_repos_order_independent _ _ Hp Hnd).
Defined.

(** X3.  No entry of the [repos] array has a [null] or missing
    description or language: an absent or empty one is replaced by
    ['No description'], respectively ['N/A'], a non-empty one is kept, and
    name, counts and URL are those of the API's entry. *)
Theorem repo_placeholders (reposData : list Repo.t) :
  (forall v, In v (topRepos reposData) ->
     ~ absent (ViewRepo.description v) /\ ~ absent (ViewRepo.language v)) /\
  (forall r,
     (absent (Repo.description r) \/ Repo.description r = JStr "" ->
      ViewRepo.description (repoView r) = JStr "No description") /\
     (absent (Repo.language r) \/ Repo.language r = JStr "" ->
      ViewRepo.language (repoView r) = JStr "N/A") /\
     (forall text, text <> ""%string -> Repo.description r = JStr text ->
      ViewRepo.description (repoView r) = JStr text) /\
     (forall text, text <> ""%string -> Repo.language r = JStr text ->
      ViewRepo.language (repoView r) = JStr text) /\
     ViewRepo.name (repoView r) = Repo.name r /\
     ViewRepo.stars (repoView r) = Repo.stargazers_count r /\
     ViewRepo.forks (repoView r) = Repo.forks_count r /\
     ViewRepo.url (repoView r) = Repo.html_url r).
Proof.
  split.
  - intros v Hv. unfold topRepos in Hv. apply in_map_iff in Hv as (r & <- & _).
    split; apply js_or_never_absent.
  - intros r. cbn. repeat split.
    + intros [[-> | ->] | ->]; reflexivity.
    + intros [[-> | ->] | ->]; reflexivity.
    + intros text Hne ->. unfold js_or. cbn.
      apply String.eqb_neq in Hne. now rewrite Hne.
    + intros text Hne ->. unfold js_or. cbn.
      apply String.eqb_neq in Hne. now rewrite Hne.
Qed.

(* ================================================================== *)
(** * More on the builder's upstream calls *)
(* ================================================================== *)

Lemma readmeMetaUrl_not_userUrl (username : string) :
  readmeMetaUrl username <> userUrl username.
Proof. unfold readmeMetaUrl, userUrl. intros H. cbn in H. discriminate H. Qed.

(** X4.  A run of the builder that fails stops at the call that failed:
    the error is that of the profile call and nothing else was requested,
    or it is that of the repositories call, made after the profile call;
    the README is not requested and the response is not touched. *)
Theorem builder_stops_at_first_failure
    (w : World) (username : string) (s' : St) (e : Error) :
  buildTemplateData w username fresh = (s', Throw e) ->
  ~ In (readmeMetaUrl username) (fetched (trace s')) /\
  res s' = res fresh /\
  ((fetched (trace s') = [userUrl username] /\
    fetchCompletion (fetch_user w (userUrl username) (requestHeaders w)) = Throw e) \/
   (fetched (trace s') = [userUrl username; reposUrl username] /\
    fetchCompletion (fetch_repos w (reposUrl username) (requestHeaders w)) = Throw e)).
Proof.
  intros Hrun.
  destruct (buildTemplateData_run w username fresh) as [html E].
  rewrite E in Hrun. cbv zeta in Hrun. clear E.
  pose proof (readmeMetaUrl_not_userUrl username) as Hu.
  pose proof (readmeMetaUrl_not_reposUrl username) as Hr.
  destruct (fetchCompletion (fetch_user w _ _)) as [userData|e1] eqn:Euser.
  - destruct (fetchCompletion (fetch_repos w _ _)) as [reposData|e2] eqn:Erepos;
      [discriminate|].
    injection Hrun as <- <-. cbn. repeat split.
    + intros [H|[H|[]]]; congruence.
    + right. split; reflexivity.
  - injection Hrun as <- <-. cbn. repeat split.
    + intros [H|[]]; congruence.
    + left. split; reflexivity.
Qed.

(** X4 at the concrete world, for an account it does not have. *)
Lemma builder_stops_at_first_failure_witness :
  buildTemplateData Demo.world "ghost" fresh
  = (push (EvFetch (userUrl "ghost") (requestHeaders Demo.world)) fresh,
     Throw (mkError "User not found")) /\
  (~ In (readmeMetaUrl "ghost")
        (fetched (trace (push (EvFetch (userUrl "ghost") (requestHeaders Demo.world))
                           fresh))) /\
   res (push (EvFetch (userUrl "ghost") (requestHeaders Demo.world)) fresh) = res fresh /\
   ((fetched (trace (push (EvFetch (userUrl "ghost") (requestHeaders Demo.world)) fresh))
     = [userUrl "ghost"] /\
     fetchCompletion (fetch_user Demo.world (userUrl "ghost") (requestHeaders Demo.world))
     = Throw (mkError "User not found")) \/
    (fetched (trace (push (EvFetch (userUrl "ghost") (requestHeaders Demo.world)) fresh))
     = [userUrl "ghost"; reposUrl "ghost"] /\
     fetchCompletion (fetch_repos Demo.world (reposUrl "ghost") (requestHeaders Demo.world))
     = Throw (mkError "User not found")))).
Proof.
  assert (Hrun : buildTemplateData Demo.world "ghost" fresh
                 = (push (EvFetch (userUrl "ghost") (requestHeaders Demo.world)) fresh,
                    Throw (mkError "User not found"))).
  { vm_compute. reflexivity. }
  split; [exact Hrun|].
  exact (builder_stops_at_first_failure Demo.world "ghost" _ _ Hrun).
Defined.

(** X5.  Every request a run of the builder makes, the README request
    included, carries the same headers: the [User-Agent] and [Accept]
    values of the file and, exactly when a token is configured, an
    [Authorization] header made of that token. *)
Theorem every_request_carries_the_headers (w : World) (username : string) :
  (forall ev, In ev (trace (fst (buildTemplateData w username fresh))) ->
     exists url, ev = EvFetch url (requestHeaders w)) /\
  lookup "User-Agent" (requestHeaders w) = Some "GitHub-to-PDF-App"%string /\
  lookup "Accept" (requestHeaders w) = Some "application/vnd.github.v3+json"%string /\
  lookup "Authorization" (requestHeaders w)
  = (if (GITHUB_TOKEN w =? "")%string then None
     else Some ("token " ++ GITHUB_TOKEN w)%string).
Proof.
  split.
  - destruct (buildTemplateData_run w username fresh) as [html ->]. cbv zeta.
    destruct (fetchCompletion (fetch_user w _ _));
      [destruct (fetchCompletion (fetch_repos w _ _))|];
      cbn; intros ev H;
      repeat (destruct H as [<-|H]; [eexists; reflexivity|]); contradiction.
  - unfold requestHeaders. destruct (GITHUB_TOKEN w =? "")%string; repeat split.
Qed.

Lemma fetchUserReadmeHtml_provenance (w : World) (username : string) (s : St)
    (html : Html) :
  snd (fetchUserReadmeHtml w username s) = Ok html ->
  html = [] \/ readme_pipeline w username html.
Proof.
  unfold readme_pipeline, fetchUserReadmeHtml, try_catch, bind, emit, lift, ret, throw.
  destruct (fetch_readme w (readmeMetaUrl username) (requestHeaders w))
    as [e|status [meta|e]]; cbn.
  - intros [= <-]. now left.
  - destruct (ok status) eqn:Eok; cbn; [|intros [= <-]; now left].
    destruct (truthy (content meta)) eqn:Et; cbn; [|intros [= <-]; now left].
    destruct (Buffer_from_base64 w (content meta)) as [markdown|e] eqn:Eb; cbn;
      [|intros [= <-]; now left].
    destruct (marked_parse w markdown) as [rawHtml|e] eqn:Em; cbn;
      [|intros [= <-]; now left].
    destruct (sanitizeHtml w _ rawHtml) as [safeHtml|e] eqn:Es; cbn;
      [|intros [= <-]; now left].
    intros [= <-]. right. exists status, meta, markdown, rawHtml. auto 7.
  - destruct (ok status); cbn; intros [= <-]; now left.
Qed.

Lemma fetchUserReadmeHtml_delivers (w : World) (username : string) (s : St)
    (safeHtml : Html) :
  readme_pipeline w username safeHtml ->
  snd (fetchUserReadmeHtml w username s) = Ok safeHtml.
Proof.
  intros (status & meta & markdown & rawHtml & Hf & Hok & Ht & Hb & Hm & Hs).
  unfold fetchUserReadmeHtml, try_catch, bind, emit, lift, ret, throw.
  rewrite Hf. cbn. rewrite Hok. cbn. rewrite Ht. cbn. rewrite Hb. cbn.
  rewrite Hm. cbn. rewrite Hs. reflexivity.
Qed.

Lemma buildTemplateData_readme (w : World) (username : string) (s s' : St)
    (templateData : TemplateData) :
  buildTemplateData w username s = (s', Ok templateData) ->
  exists s0, snd (fetchUserReadmeHtml w username s0) = Ok (readmeHtml templateData).
Proof.
  intros Hrun. unfold buildTemplateData in Hrun.
  rewrite bind_run, fetchGitHubData_run in Hrun.
  destruct (fetchCompletion (fetch_user w _ _)) as [userData|e]; [|discriminate].
  rewrite bind_run, fetchGitHubData_run in Hrun.
  destruct (fetchCompletion (fetch_repos w _ _)) as [reposData|e]; [|discriminate].
  rewrite bind_run in Hrun.
  match type of Hrun with
  | context [fetchUserReadmeHtml w username ?s0] =>
      exists s0; destruct (fetchUserReadmeHtml w username s0) as [s1 [html|e]]
  end.
  - injection Hrun as <- <-. reflexivity.
  - discriminate.
Qed.

(** X12.  The README fragment of the template data is never the raw
    output of marked: it is empty, or it is what the sanitizer returned
    for the decoded and rendered README; and when the README goes through
    every stage, what the sanitizer returned is the fragment, so it is not
    lost either. *)
Theorem readme_reaches_the_template_sanitized
    (w : World) (username : string) (s s' : St) (templateData : TemplateData) :
  buildTemplateData w username s = (s', Ok templateData) ->
  (readmeHtml templateData = [] \/
   readme_pipeline w username (readmeHtml templateData)) /\
  (forall safeHtml,
     readme_pipeline w username safeHtml -> readmeHtml templateData = safeHtml).
Proof.
  intros Hrun. destruct (buildTemplateData_readme _ _ _ _ _ Hrun) as [s0 H0]. split.
  - exact (fetchUserReadmeHtml_provenance _ _ _ _ H0).
  - intros safeHtml Hp.
    pose proof (fetchUserReadmeHtml_delivers w username s0 safeHtml Hp) as H1.
    congruence.
Qed.

(** X12 at the concrete world: the fragment is the sanitizer's, without
    the script the README had. *)
Lemma readme_reaches_the_template_sanitized_witness :
  exists s' templateData,
    buildTemplateData Demo.world "octocat" fresh = (s', Ok templateData) /\
    readme_pipeline Demo.world "octocat" (readmeHtml templateData) /\
    Forall (fun e => fst e <> "script"%string) (elements (readmeHtml templateData)).
Proof.
  assert (Hrun : { out : St * TemplateData |
                   buildTemplateData Demo.world "octocat" fresh
                   = (fst out, Ok (snd out)) }).
  { eexists (_, _). vm_compute. reflexivity. }
  destruct Hrun as [[s' templateData] Hrun]. cbn [fst snd] in Hrun.
  exists s', templateData. split; [exact Hrun|].
  destruct (readme_reaches_the_template_sanitized _ _ _ _ _ Hrun) as [_ Hall].
  assert (Hp : readme_pipeline Demo.world "octocat"
                 [ Element "h1" [] [Text "Hi there"];
                   Element "p" []
                     [ Element "a"
                         [("href", "https://example.org"); ("target", "_blank");
                          ("rel", "noopener noreferrer")]
                         [Text "my site"];
                       Element "img" [("src", "x.png")] [] ] ]%string).
  { exists 200, (mkMeta (JStr "IyBIaSB0aGVyZQ==")), "# Hi there"%string, Demo.rawReadme.
    repeat split. }
  rewrite (Hall _ Hp). split; [exact Hp|].
  cbn. repeat constructor; cbn; discriminate.
Defined.

(* ================================================================== *)
(** * More on the handlers *)
(* ================================================================== *)

Lemma buildTemplateData_res (w : World) (username : string) (s : St) :
  res (fst (buildTemplateData w username s)) = res s.
Proof.
  destruct (buildTemplateData_run w username s) as [html ->]. cbv zeta.
  destruct (fetchCompletion (fetch_user w _ _));
    [destruct (fetchCompletion (fetch_repos w _ _))|]; reflexivity.
Qed.

Lemma buildTemplateData_refused (w : World) (username : string) (status : Z) (s : St) :
  upstream_refuses w username status ->
  ok status = false -> status <> 404%Z ->
  exists s',
    buildTemplateData w username s
    = (s', Throw (mkError ("GitHub API error: " ++ js_toString (JNum status)))) /\
    res s' = res s.
Proof.
  intros Href Hok Hne. apply Z.eqb_neq in Hne.
  destruct (buildTemplateData_run w username s) as [html ->]. cbv zeta.
  destruct Href as [[json Hu]|(st & userData & json & Hu & Hst & Hr)].
  - rewrite Hu. cbn [fetchCompletion]. rewrite Hok, Hne. eauto.
  - rewrite Hu. cbn [fetchCompletion]. rewrite Hst, Hr. cbn [fetchCompletion].
    rewrite Hok, Hne. eauto.
Qed.

(** X6.  When the upstream refuses the profile or the repositories call
    with a status other than 404 (a rate limit, a server error), both
    handlers answer 500, not 404, and the text names the stage and the
    upstream status. *)
Theorem upstream_error_is_500 (w : World) (username : jsval) (status : Z) :
  truthy username = true ->
  upstream_refuses w (js_toString username) status ->
  ok status = false -> status <> 404%Z ->
  (statusCode (res (fst (preview w username fresh))) = 500 /\
   body (res (fst (preview w username fresh)))
   = Some (BText ("Error generating preview: GitHub API error: "
                    ++ js_toString (JNum status)))) /\
  (statusCode (res (fst (pdf w username fresh))) = 500 /\
   body (res (fst (pdf w username fresh)))
   = Some (BText ("Error generating PDF: GitHub API error: "
                    ++ js_toString (JNum status)))).
Proof.
  intros Htruthy Href Hok Hne.
  assert (Hpreview : exists s', preview w username fresh = (s', Ok tt) /\
                       statusCode (res s') = 500 /\
                       body (res s')
                       = Some (BText ("Error generating preview: GitHub API error: "
                                        ++ js_toString (JNum status)))).
  { unfold preview. rewrite Htruthy. cbn [negb]. unfold try_catch.
    rewrite bind_run.
    destruct (buildTemplateData_refused w (js_toString username) status fresh
                Href Hok Hne) as (s' & -> & Hres).
    cbn [message String.eqb Ascii.eqb Bool.eqb String.append].
    unfold bind, res_status, res_send. cbn. rewrite Hres. cbn.
    eexists. repeat split. }
  assert (Hpdf : exists s', pdf w username fresh = (s', Ok tt) /\
                   statusCode (res s') = 500 /\
                   body (res s')
                   = Some (BText ("Error generating PDF: GitHub API error: "
                                    ++ js_toString (JNum status)))).
  { unfold pdf. rewrite Htruthy. cbn [negb]. unfold try_catch.
    rewrite bind_run. unfold console_log at 1, emit at 1. cbv beta iota.
    rewrite bind_run.
    destruct (buildTemplateData_refused w (js_toString username) status
                (push (EvLog ("Fetching data for GitHub user: " ++ js_toString username)) fresh)
                Href Hok Hne) as (s' & -> & Hres).
    cbn [message String.eqb Ascii.eqb Bool.eqb String.append].
    unfold bind, console_log, emit, res_status, res_send. cbn. rewrite Hres. cbn.
    eexists. repeat split. }
  destruct Hpreview as (s1 & -> & Hs1 & Hb1).
  destruct Hpdf as (s2 & -> & Hs2 & Hb2).
  cbn [fst]. auto.
Qed.

(** X7.  [/preview] always answers, exactly once: whatever the
    collaborators do, the handler completes normally with a text body sent
    under one of the statuses 200, 400, 404 and 500, and under 200 only
    when the body is the page the template engine rendered. *)
Theorem preview_always_answers (w : World) (username : jsval) :
  exists s text,
    preview w username fresh = (s, Ok tt) /\
    headersSent (res s) = true /\
    body (res s) = Some (BText text) /\
    In (statusCode (res s)) [200; 400; 404; 500]%Z /\
    (statusCode (res s) = 200%Z ->
     exists templateData, ejs_renderFile w templateData (Some true) = Ok text).
Proof.
  unfold preview. destruct (truthy username); cbn [negb].
  - unfold try_catch. rewrite bind_run.
    destruct (buildTemplateData_run w (js_toString username) fresh) as [html ->].
    cbv zeta.
    destruct (fetchCompletion (fetch_user w _ _)) as [userData|e1];
      [destruct (fetchCompletion (fetch_repos w _ _)) as [reposData|e2]|].
    + unfold bind, emit, lift, res_send, res_status. cbn -[topRepos userView].
      match goal with
      | |- context [ejs_renderFile w ?td (Some true)] =>
          destruct (ejs_renderFile w td (Some true)) as [page|e3] eqn:Erender
      end.
      * cbn. do 2 eexists. repeat split; cbn; eauto.
      * destruct (message e3 =? "User not found")%string; cbn;
          do 2 eexists; repeat split; cbn; auto; discriminate.
    + unfold bind, res_send, res_status.
      destruct (message e2 =? "User not found")%string; cbn;
        do 2 eexists; repeat split; cbn; auto; discriminate.
    + unfold bind, res_send, res_status.
      destruct (message e1 =? "User not found")%string; cbn;
        do 2 eexists; repeat split; cbn; auto; discriminate.
  - cbn. do 2 eexists. repeat split; cbn; auto. discriminate.
Qed.

(** X8.  [/preview] on a run that goes through: after the builder's
    requests the template is rendered once, with the download button
    asked for, and the rendered page is sent under status 200. *)
Theorem preview_sends_the_rendered_page
    (w : World) (username : jsval) (s1 : St) (templateData : TemplateData)
    (page : string) :
  truthy username = true ->
  buildTemplateData w (js_toString username) fresh = (s1, Ok templateData) ->
  ejs_renderFile w templateData (Some true) = Ok page ->
  exists s,
    preview w username fresh = (s, Ok tt) /\
    statusCode (res s) = 200%Z /\
    body (res s) = Some (BText page) /\
    trace s = trace s1 ++ [EvRenderFile (Some true)] /\
    fetched (trace s)
    = [userUrl (js_toString username); reposUrl (js_toString username);
       readmeMetaUrl (js_toString username)].
Proof.
  intros Htruthy Hbuild Hrender.
  pose proof (buildTemplateData_res w (js_toString username) fresh) as Hres.
  assert (Hfetched : fetched (trace s1)
                     = [userUrl (js_toString username); reposUrl (js_toString username);
                        readmeMetaUrl (js_toString username)]).
  { destruct (buildTemplateData_run w (js_toString username) fresh) as [html E].
    rewrite E in Hbuild. cbv zeta in Hbuild.
    destruct (fetchCompletion (fetch_user w _ _));
      [destruct (fetchCompletion (fetch_repos w _ _))|]; try discriminate.
    injection Hbuild as <- _. reflexivity. }
  rewrite Hbuild in Hres. cbn [fst] in Hres.
  destruct s1 as [r1 t1]. cbn [res trace] in *. subst r1.
  unfold preview. rewrite Htruthy. cbn [negb]. unfold try_catch.
  rewrite bind_run, Hbuild.
  unfold bind, emit, lift, res_send. cbn. rewrite Hrender. cbn.
  eexists. repeat split. cbn.
  unfold fetched in *. rewrite flat_map_app, Hfetched. reflexivity.
Qed.

(** X8 at the concrete world. *)
Lemma preview_sends_the_rendered_page_witness :
  exists s1 templateData s,
    truthy (JStr "octocat") = true /\
    buildTemplateData Demo.world "octocat" fresh = (s1, Ok templateData) /\
    ejs_renderFile Demo.world templateData (Some true) = Ok "<html></html>"%string /\
    preview Demo.world (JStr "octocat") fresh = (s, Ok tt) /\
    statusCode (res s) = 200%Z /\
    body (res s) = Some (BText "<html></html>") /\
    trace s = trace s1 ++ [EvRenderFile (Some true)] /\
    fetched (trace s)
    = [userUrl "octocat"; reposUrl "octocat"; readmeMetaUrl "octocat"].
Proof.
  assert (Hrun : { out : St * TemplateData |
                   buildTemplateData Demo.world "octocat" fresh
                   = (fst out, Ok (snd out)) }).
  { eexists (_, _). vm_compute. reflexivity. }
  destruct Hrun as [[s1 templateData] Hrun]. cbn [fst snd] in Hrun.
  destruct (preview_sends_the_rendered_page Demo.world (JStr "octocat") s1
              templateData "<html></html>" eq_refl Hrun eq_refl) as (s & H).
  exists s1, templateData, s. repeat split; try exact Hrun; apply H.
Defined.

(** X6 at a rate-limited upstream. *)
Lemma upstream_error_is_500_witness :
  truthy (JStr "octocat") = true /\
  upstream_refuses Cases.rateLimited "octocat" 403 /\
  ok 403 = false /\ 403%Z <> 404%Z /\
  (statusCode (res (fst (preview Cases.rateLimited (JStr "octocat") fresh))) = 500 /\
   body (res (fst (preview Cases.rateLimited (JStr "octocat") fresh)))
   = Some (BText "Error generating preview: GitHub API error: 403")) /\
  (statusCode (res (fst (pdf Cases.rateLimited (JStr "octocat") fresh))) = 500 /\
   body (res (fst (pdf Cases.rateLimited (JStr "octocat") fresh)))
   = Some (BText "Error generating PDF: GitHub API error: 403")).
Proof.
  assert (Href : upstream_refuses Cases.rateLimited "octocat" 403).
  { left. eexists. reflexivity. }
  assert (Hne : 403%Z <> 404%Z) by discriminate.
  split; [reflexivity|]. split; [exact Href|]. split; [reflexivity|].
  split; [exact Hne|].
  exact (upstream_error_is_500 Cases.rateLimited (JStr "octocat") 403
           eq_refl Href eq_refl Hne).
Defined.

Lemma exportPdf_run (w : World) (username : jsval) (page : string)
    (pdfData : list Byte.byte) (s : St) :
  export_succeeds w username page pdfData ->
  headersSent (res s) = false ->
  exportPdf w username page s
  = ({| res :=
          {| statusCode := statusCode (res s);
             resHeaders :=
               resHeaders (res s)
               ++ [("Content-Type", "application/pdf");
                   ("Content-Disposition",
                    "attachment; filename=" ++ dquote ++ js_toString username
                      ++ "-github-resume.pdf" ++ dquote);
                   ("Content-Length",
                    js_toString (JNum (Z.of_nat (List.length pdfData))))]%string;
             body := Some (BBuffer pdfData);
             headersSent := true |};
        trace :=
          trace s
          ++ [EvNewPage; EvSetContent page; EvEmulateMediaType "screen"; EvPdf;
              EvLog ("PDF generated successfully for " ++ js_toString username)] |},
     Ok tt).
Proof.
  intros (_ & _ & Hnew & Hset & Hemu & Hpdf & H1 & H2 & H3 & _) Hsent.
  destruct s as [[code hs bd sent] tr]. cbn [res headersSent] in Hsent. subst sent.
  unfold exportPdf, console_log, bind, emit, lift, res_setHeader, res_end, push.
  rewrite Hnew, Hset, Hemu, Hpdf. cbv beta iota zeta.
  rewrite H1, H2, H3. cbn [negb res trace headersSent resHeaders statusCode body].
  rewrite <- !app_assoc. reflexivity.
Qed.

(** X9.  [/pdf] on a run in which every stage succeeds: the response has
    status 200, the three headers of the file, in the order it sets them,
    with the file name made of the username and the length that of the
    buffer, and the PDF bytes as body; the template is rendered without
    the download button; and the browser is driven in the order launch,
    new page, content, screen media, PDF, close. *)
Theorem pdf_sends_the_document
    (w : World) (username : jsval) (s1 : St) (templateData : TemplateData)
    (page : string) (pdfData : list Byte.byte) :
  truthy username = true ->
  buildTemplateData w (js_toString username)
    (push (EvLog ("Fetching data for GitHub user: " ++ js_toString username)) fresh)
  = (s1, Ok templateData) ->
  ejs_renderFile w templateData None = Ok page ->
  export_succeeds w username page pdfData ->
  exists s,
    pdf w username fresh = (s, Ok tt) /\
    statusCode (res s) = 200%Z /\
    resHeaders (res s)
    = [("Content-Type", "application/pdf");
       ("Content-Disposition",
        "attachment; filename=" ++ dquote ++ js_toString username
          ++ "-github-resume.pdf" ++ dquote);
       ("Content-Length", js_toString (JNum (Z.of_nat (List.length pdfData))))]%string /\
    body (res s) = Some (BBuffer pdfData) /\
    trace s
    = trace s1
      ++ [EvLog ("Rendering template for " ++ js_toString username);
          EvRenderFile None;
          EvLog "Generating PDF with Puppeteer...";
          EvGetPuppeteer; EvLaunchCall; EvLaunched;
          EvNewPage; EvSetContent page; EvEmulateMediaType "screen"; EvPdf;
          EvLog ("PDF generated successfully for " ++ js_toString username);
          EvClose].
Proof.
  intros Htruthy Hbuild Hrender Hexport.
  pose proof (buildTemplateData_res w (js_toString username)
                (push (EvLog ("Fetching data for GitHub user: " ++ js_toString username)) fresh))
    as Hres.
  rewrite Hbuild in Hres. cbn [fst] in Hres.
  destruct s1 as [r1 t1]. cbn [res push] in Hres. subst r1.
  pose proof Hexport as (Hget & Hlaunch & _ & _ & _ & _ & _ & _ & _ & Hclose).
  unfold pdf. rewrite Htruthy. cbn [negb]. unfold try_catch.
  rewrite bind_run. unfold console_log at 1, emit at 1. cbv beta iota.
  rewrite bind_run, Hbuild.
  rewrite bind_run. unfold console_log at 1, emit at 1. cbv beta iota.
  rewrite bind_run. unfold bind at 2, emit at 1, lift at 1. cbv beta iota.
  rewrite Hrender.
  rewrite bind_run. unfold console_log at 1, emit at 1. cbv beta iota.
  rewrite bind_run. unfold emit at 1. cbv beta iota.
  rewrite bind_run. unfold lift at 1. rewrite Hget.
  rewrite bind_run. unfold emit at 1. cbv beta iota.
  rewrite bind_run. unfold lift at 1. rewrite Hlaunch.
  rewrite bind_run. unfold emit at 1. cbv beta iota.
  unfold try_finally.
  rewrite (exportPdf_run w username page pdfData _ Hexport) by reflexivity.
  unfold bind, emit, lift. rewrite Hclose.
  eexists. split; [reflexivity|]. cbn [res trace push fresh statusCode resHeaders body app].
  repeat split. rewrite <- !app_assoc. reflexivity.
Qed.

(** X9 at the concrete world. *)
Lemma pdf_sends_the_document_witness :
  exists s1 templateData s,
    truthy (JStr "octocat") = true /\
    buildTemplateData Demo.world "octocat"
      (push (EvLog "Fetching data for GitHub user: octocat") fresh)
    = (s1, Ok templateData) /\
    ejs_renderFile Demo.world templateData None = Ok "<html></html>"%string /\
    export_succeeds Demo.world (JStr "octocat") "<html></html>"
      [Byte.x25; Byte.x50; Byte.x44; Byte.x46] /\
    pdf Demo.world (JStr "octocat") fresh = (s, Ok tt) /\
    statusCode (res s) = 200%Z /\
    resHeaders (res s)
    = [("Content-Type", "application/pdf");
       ("Content-Disposition",
        "attachment; filename=" ++ dquote ++ "octocat-github-resume.pdf" ++ dquote);
       ("Content-Length", "4")]%string /\
    body (res s) = Some (BBuffer [Byte.x25; Byte.x50; Byte.x44; Byte.x46]).
Proof.
  assert (Hrun : { out : St * TemplateData |
                   buildTemplateData Demo.world "octocat"
                     (push (EvLog "Fetching data for GitHub user: octocat") fresh)
                   = (fst out, Ok (snd out)) }).
  { eexists (_, _). vm_compute. reflexivity. }
  destruct Hrun as [[s1 templateData] Hrun]. cbn [fst snd] in Hrun.
  assert (Hexport : export_succeeds Demo.world (JStr "octocat") "<html></html>"
                      [Byte.x25; Byte.x50; Byte.x44; Byte.x46]).
  { repeat split. }
  destruct (pdf_sends_the_document Demo.world (JStr "octocat") s1 templateData
              "<html></html>" [Byte.x25; Byte.x50; Byte.x44; Byte.x46]
              eq_refl Hrun eq_refl Hexport) as (s & Hpdf & Hcode & Hheaders & Hbody & _).
  exists s1, templateData, s. repeat split; trivial.
Defined.

Ltac oracle_step w H :=
  match type of H with
  | context [ejs_renderFile w ?a ?b] => destruct (ejs_renderFile w a b) eqn:?
  | context [getPuppeteer w] => destruct (getPuppeteer w) eqn:?
  | context [puppeteer_launch w] => destruct (puppeteer_launch w) eqn:?
  | context [browser_newPage w] => destruct (browser_newPage w) eqn:?
  | context [page_setContent w ?a] => destruct (page_setContent w a) eqn:?
  | context [page_emulateMediaType w ?a] => destruct (page_emulateMediaType w a) eqn:?
  | context [page_pdf w] => destruct (page_pdf w) eqn:?
  | context [header_valid w ?a ?b] => destruct (header_valid w a b) eqn:?
  | context [browser_close w] => destruct (browser_close w) eqn:?
  | context [(message ?e =? "User not found")%string] =>
      destruct (message e =? "User not found")%string eqn:?
  end.

(** X10.  [/pdf] always sends a response.  Its promise is rejected in one
    case only: every stage succeeded, the PDF was sent, and
    [browser.close()] then threw, so that the error handler's own
    [res.send] found the headers already sent; with a browser that
    closes, the handler completes normally. *)
Theorem pdf_always_answers (w : World) (username : jsval) :
  pdf_answered w (pdf w username fresh).
Proof.
  remember (pdf w username fresh) as out eqn:Hout.
  unfold pdf in Hout. destruct (truthy username); cbn [negb] in Hout.
  - unfold try_catch in Hout. rewrite bind_run in Hout.
    unfold console_log at 1, emit at 1 in Hout. cbv beta iota in Hout.
    rewrite bind_run in Hout.
    pose proof (buildTemplateData_res w (js_toString username)
                  (push (EvLog ("Fetching data for GitHub user: "
                                  ++ js_toString username)) fresh)) as Hres.
    destruct (buildTemplateData w (js_toString username) _) as [[r1 t1] [templateData|e0]];
      cbn [fst res push fresh] in Hres; subst r1;
      unfold exportPdf, try_finally, console_log, bind, emit, lift,
        res_setHeader, res_end, res_status, res_send, push in Hout;
      cbn [res trace headersSent fst snd] in Hout;
      repeat (oracle_step w Hout;
              cbn [res trace headersSent statusCode resHeaders body negb fst snd] in Hout);
      subst out; unfold pdf_answered; cbn [fst snd res body headersSent];
      (split; [reflexivity|]);
      (split; [eexists; reflexivity|]);
      (split; [intros err Hthrow;
               first [discriminate
                     |injection Hthrow as <-;
                      split; [reflexivity|]; split; eauto]
              |intros Hok; congruence]).
  - subst out. unfold pdf_answered. cbn. repeat split; eauto; discriminate.
Qed.

(** The one rejection of X10, on a browser that cannot be closed: the PDF
    is the body, and the handler's promise is rejected. *)
Example demo_pdf_close_fails :
  snd (pdf Cases.closeFails (JStr "octocat") fresh) = Throw ERR_HTTP_HEADERS_SENT /\
  body (res (fst (pdf Cases.closeFails (JStr "octocat") fresh)))
  = Some (BBuffer [Byte.x25; Byte.x50; Byte.x44; Byte.x46]).
Proof. vm_compute. split; reflexivity. Qed.

Lemma buildTemplateData_no_puppeteer (w : World) (username : string) :
  emits (only (fun e => negb (is_puppeteer e))) (buildTemplateData w username).
Proof.
  intros s. destruct (buildTemplateData_run w username s) as [html ->]. cbv zeta.
  destruct (fetchCompletion (fetch_user w _ _));
    [destruct (fetchCompletion (fetch_repos w _ _))|];
    cbn [fst trace push]; rewrite <- ?app_assoc; eexists; (split; [reflexivity|]);
    repeat constructor.
Qed.

Lemma only_not_puppeteer (t : list Event) :
  only (fun e => negb (is_puppeteer e)) t ->
  Forall (fun ev => is_puppeteer ev = false) t.
Proof.
  apply Forall_impl. intros ev Hev. now apply negb_true_iff in Hev.
Qed.

(** X11.  [/pdf] starts no browser for a request it cannot serve: when the
    builder fails (the account is absent, the upstream refuses, the
    network is down) or the template cannot be rendered, puppeteer is
    neither loaded nor launched. *)
Theorem no_browser_without_a_page (w : World) (username : jsval) :
  (exists s1 e,
      buildTemplateData w (js_toString username)
        (push (EvLog ("Fetching data for GitHub user: " ++ js_toString username)) fresh)
      = (s1, Throw e)) \/
  (exists s1 templateData e,
      buildTemplateData w (js_toString username)
        (push (EvLog ("Fetching data for GitHub user: " ++ js_toString username)) fresh)
      = (s1, Ok templateData) /\
      ejs_renderFile w templateData None = Throw e) ->
  Forall (fun ev => is_puppeteer ev = false) (trace (fst (pdf w username fresh))).
Proof.
  intros Hfail.
  remember (pdf w username fresh) as out eqn:Hout.
  unfold pdf in Hout. destruct (truthy username); cbn [negb] in Hout.
  - unfold try_catch in Hout. rewrite bind_run in Hout.
    unfold console_log at 1, emit at 1 in Hout. cbv beta iota in Hout.
    rewrite bind_run in Hout.
    destruct (buildTemplateData_no_puppeteer w (js_toString username)
                (push (EvLog ("Fetching data for GitHub user: "
                                ++ js_toString username)) fresh))
      as (ext & Hext & Hquiet).
    pose proof (buildTemplateData_res w (js_toString username)
                  (push (EvLog ("Fetching data for GitHub user: "
                                  ++ js_toString username)) fresh)) as Hres.
    destruct Hfail as [(s1 & e & Hb)|(s1 & templateData & e & Hb & Hrender)];
      rewrite Hb in Hout, Hext, Hres; cbn [fst] in Hext, Hres;
      destruct s1 as [r1 t1]; cbn [res trace push fresh] in Hext, Hres; subst r1 t1;
      unfold console_log, bind, emit, lift, res_status, res_send, push in Hout;
      cbn [res trace headersSent fst snd] in Hout;
      try rewrite Hrender in Hout;
      cbn [res trace headersSent fst snd] in Hout;
      destruct (message e =? "User not found")%string;
      subst out; cbn [fst trace];
      apply only_not_puppeteer;
      repeat apply only_app;
      first [exact Hquiet | repeat constructor].
  - subst out. cbn. constructor.
Qed.

(** X11 at the concrete world, for an account it does not have. *)
Lemma no_browser_without_a_page_witness :
  (exists s1 e,
      buildTemplateData Demo.world "ghost"
        (push (EvLog "Fetching data for GitHub user: ghost") fresh)
      = (s1, Throw e)) /\
  Forall (fun ev => is_puppeteer ev = false)
    (trace (fst (pdf Demo.world (JStr "ghost") fresh))).
Proof.
  assert (Hfail : exists s1 e,
             buildTemplateData Demo.world "ghost"
               (push (EvLog "Fetching data for GitHub user: ghost") fresh)
             = (s1, Throw e)).
  { do 2 eexists. vm_compute. reflexivity. }
  split; [exact Hfail|].
  exact (no_browser_without_a_page Demo.world (JStr "ghost") (or_introl Hfail)).
Defined.

(* ================================================================== *)
(** * The cache of [getPuppeteer] *)
(* ================================================================== *)

Lemma cached_calls {Mod : Type} (default : Mod -> option Mod)
    (p : Mod) (n : nat) (later : list (Result Mod)) :
  PuppeteerCache.calls Mod default later
    {| PuppeteerCache.cachedPuppeteer := Some p; PuppeteerCache.imports := n |}
  = ({| PuppeteerCache.cachedPuppeteer := Some p; PuppeteerCache.imports := n |},
     map (fun _ => Ok p) later).
Proof.
  induction later as [|r rest IH]; cbn; [reflexivity|]. now rewrite IH.
Qed.

(** X13.  [getPuppeteer] imports until it succeeds once and never again:
    in a series of calls from an empty cache whose imports fail up to some
    call, those calls throw the import's error, the first call whose
    import succeeds returns the module's default export (the module
    itself when it has none), and every later call returns that same
    value without importing, whatever the import would give then. *)
Theorem puppeteer_is_imported_once {Mod : Type} (default : Mod -> option Mod)
    (failures : list Error) (loaded : Mod) (later : list (Result Mod)) :
  let puppeteer :=
    match default loaded with
    | Some d => d
    | None => loaded
    end in
  PuppeteerCache.calls Mod default
    (map Throw failures ++ Ok loaded :: later) (PuppeteerCache.initial Mod)
  = ({| PuppeteerCache.cachedPuppeteer := Some puppeteer;
        PuppeteerCache.imports := S (List.length failures) |},
     map Throw failures ++ Ok puppeteer :: map (fun _ => Ok puppeteer) later).
Proof.
  intros puppeteer. unfold PuppeteerCache.initial.
  change (S (List.length failures)) with (S (0 + List.length failures)).
  generalize 0%nat as n.
  induction failures as [|e rest IH]; intros n.
  - cbn [map app List.length PuppeteerCache.calls PuppeteerCache.getPuppeteer
         PuppeteerCache.cachedPuppeteer PuppeteerCache.imports].
    fold puppeteer. rewrite cached_calls. now rewrite Nat.add_0_r.
  - cbn [map app List.length PuppeteerCache.calls PuppeteerCache.getPuppeteer
         PuppeteerCache.cachedPuppeteer PuppeteerCache.imports].
    rewrite IH. now rewrite Nat.add_succ_r.
Qed.

(** A series of calls: the import fails twice, then gives a namespace
    whose default export is ["puppeteer"], and would fail again later. *)
Example demo_cache :
  PuppeteerCache.calls string
    (fun m => if (m =? "namespace")%string then Some "puppeteer"%string else None)
    [Throw (mkError "ERR_MODULE_NOT_FOUND"); Throw (mkError "ERR_MODULE_NOT_FOUND");
     Ok "namespace"%string; Throw (mkError "ERR_MODULE_NOT_FOUND"); Ok "other"%string]
    (PuppeteerCache.initial string)
  = ({| PuppeteerCache.cachedPuppeteer := Some "puppeteer"%string;
        PuppeteerCache.imports := 3 |},
     [Throw (mkError "ERR_MODULE_NOT_FOUND"); Throw (mkError "ERR_MODULE_NOT_FOUND");
      Ok "puppeteer"%string; Ok "puppeteer"%string; Ok "puppeteer"%string]).
Proof. reflexivity. Qed.

(* ================================================================== *)
(** * More on [fetchGitHubData] *)
(* ================================================================== *)

(** X14.  [fetchGitHubData] makes one request and leaves the response
    alone; it returns a body exactly when the status is between 200 and
    299 and the body parses; a 404 becomes the error ['User not found'];
    and no other refusal does: its message starts with the upstream
    status line instead. *)
Theorem fetchGitHubData_contract {A : Type} (w : World)
    (fetch : string -> Headers -> FetchOutcome A) (url : string) (s : St) :
  fst (fetchGitHubData w fetch url s) = push (EvFetch url (requestHeaders w)) s /\
  (forall a,
     snd (fetchGitHubData w fetch url s) = Ok a <->
     exists status,
       fetch url (requestHeaders w) = Resp status (Ok a) /\
       (200 <= status <= 299)%Z) /\
  (forall json,
     fetch url (requestHeaders w) = Resp 404 json ->
     snd (fetchGitHubData w fetch url s) = Throw (mkError "User not found")) /\
  (forall status json,
     fetch url (requestHeaders w) = Resp status json ->
     ~ (200 <= status <= 299)%Z -> status <> 404%Z ->
     snd (fetchGitHubData w fetch url s)
     = Throw (mkError ("GitHub API error: " ++ js_toString (JNum status))) /\
     ("GitHub API error: " ++ js_toString (JNum status))%string
     <> "User not found"%string).
Proof.
  rewrite fetchGitHubData_run. cbn [fst snd]. split; [reflexivity|].
  assert (Hok : forall status, ok status = true <-> (200 <= status <= 299)%Z).
  { intros status. unfold ok. rewrite andb_true_iff, Z.leb_le, Z.ltb_lt. lia. }
  split; [|split].
  - intros a. split.
    + intros H. apply fetchCompletion_Ok in H as (status & Hresp & Hs).
      exists status. split; [exact Hresp|now apply Hok].
    + intros (status & -> & Hs). apply Hok in Hs. cbn. now rewrite Hs.
  - intros json ->. reflexivity.
  - intros status json Hresp Hrange Hne. split.
    + rewrite Hresp. cbn [fetchCompletion].
      destruct (ok status) eqn:E; [apply Hok in E; contradiction|].
      apply Z.eqb_neq in Hne. now rewrite Hne.
    + cbn. discriminate.
Qed.

(* ================================================================== *)
(** * A failing export *)
(* ================================================================== *)

(** X15.  [/pdf] when the rasterization fails on a launched browser: the
    browser is closed, then the error is logged and answered with status
    500 and the error's message; no PDF header has been set. *)
Theorem failed_export_is_500
    (w : World) (username : jsval) (s1 : St) (templateData : TemplateData)
    (page : string) (e : Error) :
  truthy username = true ->
  buildTemplateData w (js_toString username)
    (push (EvLog ("Fetching data for GitHub user: " ++ js_toString username)) fresh)
  = (s1, Ok templateData) ->
  ejs_renderFile w templateData None = Ok page ->
  getPuppeteer w = Ok tt -> puppeteer_launch w = Ok tt ->
  browser_newPage w = Ok tt -> page_setContent w page = Ok tt ->
  page_emulateMediaType w "screen" = Ok tt ->
  page_pdf w = Throw e ->
  browser_close w = Ok tt ->
  (message e =? "User not found")%string = false ->
  exists s,
    pdf w username fresh = (s, Ok tt) /\
    statusCode (res s) = 500%Z /\
    resHeaders (res s) = [] /\
    body (res s) = Some (BText ("Error generating PDF: " ++ message e)) /\
    trace s
    = trace s1
      ++ [EvLog ("Rendering template for " ++ js_toString username);
          EvRenderFile None;
          EvLog "Generating PDF with Puppeteer...";
          EvGetPuppeteer; EvLaunchCall; EvLaunched;
          EvNewPage; EvSetContent page; EvEmulateMediaType "screen"; EvPdf;
          EvClose;
          EvLog "Error generating PDF:"].
Proof.
  intros Htruthy Hbuild Hrender Hget Hlaunch Hnew Hset Hemu Hpdf Hclose Hmsg.
  pose proof (buildTemplateData_res w (js_toString username)
                (push (EvLog ("Fetching data for GitHub user: " ++ js_toString username)) fresh))
    as Hres.
  rewrite Hbuild in Hres. cbn [fst] in Hres.
  destruct s1 as [r1 t1]. cbn [res push] in Hres. subst r1.
  unfold pdf. rewrite Htruthy. cbn [negb]. unfold try_catch.
  rewrite bind_run. unfold console_log at 1, emit at 1. cbv beta iota.
  rewrite bind_run, Hbuild.
  unfold exportPdf, try_finally, console_log, bind, emit, lift,
    res_setHeader, res_end, res_status, res_send, push.
  cbn [res trace headersSent fst snd].
  rewrite Hrender, Hget, Hlaunch, Hnew, Hset, Hemu, Hpdf.
  cbn [res trace headersSent fst snd]. rewrite Hclose.
  cbn [res trace headersSent fst snd message]. rewrite Hmsg.
  cbn [res trace headersSent fst snd fresh statusCode resHeaders body].
  eexists. split; [reflexivity|].
  cbn [res trace statusCode resHeaders body]. repeat split.
  rewrite <- !app_assoc. reflexivity.
Qed.

(** X15 at the world whose rasterization fails. *)
Lemma failed_export_is_500_witness :
  exists s1 templateData s,
    buildTemplateData Demo.brokenPdf "octocat"
      (push (EvLog "Fetching data for GitHub user: octocat") fresh)
    = (s1, Ok templateData) /\
    ejs_renderFile Demo.brokenPdf templateData None = Ok "<html></html>"%string /\
    page_pdf Demo.brokenPdf = Throw (mkError "Protocol error (Page.printToPDF)") /\
    pdf Demo.brokenPdf (JStr "octocat") fresh = (s, Ok tt) /\
    statusCode (res s) = 500%Z /\
    resHeaders (res s) = [] /\
    body (res s)
    = Some (BText "Error generating PDF: Protocol error (Page.printToPDF)").
Proof.
  assert (Hrun : { out : St * TemplateData |
                   buildTemplateData Demo.brokenPdf "octocat"
                     (push (EvLog "Fetching data for GitHub user: octocat") fresh)
                   = (fst out, Ok (snd out)) }).
  { eexists (_, _). vm_compute. reflexivity. }
  destruct Hrun as [[s1 templateData] Hrun]. cbn [fst snd] in Hrun.
  destruct (failed_export_is_500 Demo.brokenPdf (JStr "octocat") s1 templateData
              "<html></html>" (mkError "Protocol error (Page.printToPDF)")
              eq_refl Hrun eq_refl eq_refl eq_refl eq_refl eq_refl eq_refl eq_refl
              eq_refl eq_refl) as (s & Hpdf & Hcode & Hheaders & Hbody & _).
  exists s1, templateData, s. repeat split; trivial.
Defined.
